(** * The pyre client entry point ([client/pyre.py])

    A shallow embedding of the command lifecycle ([run_pyre_command]), of the
    configuration resolver with its recently-used-roots fallback
    ([_create_configuration_with_retry]) and of the top-level dispatch
    ([pyre], [_run_default_command], [main]).

    Python code that raises and that calls collaborators is written in a
    state-and-exception monad; every call of a collaborator is appended to a
    trace, so that ordering and counting properties are statements about that
    trace. *)

From Stdlib Require Import List String Bool ZArith QArith Lia.
Import ListNotations.
Local Open Scope string_scope.
Local Open Scope list_scope.

Set Implicit Arguments.

(** ** Exceptions *)

(** The exception classes this file raises, catches or lets through.
    [TypeError] and [RuntimeError] stand for the ordinary built-in errors,
    [SystemExit] for the exits that derive from [BaseException] only. *)
Inductive ExcClass : Type :=
| BaseException
| Exception
| KeyboardInterrupt
| SystemExit
| TypeError
| RuntimeError
| BuckException
| EnvironmentException
| ClientException
| InvalidConfiguration
| ClickException.

Definition ExcClass_eqb (c d : ExcClass) : bool :=
  match c, d with
  | BaseException, BaseException
  | Exception, Exception
  | KeyboardInterrupt, KeyboardInterrupt
  | SystemExit, SystemExit
  | TypeError, TypeError
  | RuntimeError, RuntimeError
  | BuckException, BuckException
  | EnvironmentException, EnvironmentException
  | ClientException, ClientException
  | InvalidConfiguration, InvalidConfiguration
  | ClickException, ClickException => true
  | _, _ => false
  end.

(** Modelled from the spec: the class statements of [buck.BuckException],
    [exceptions.EnvironmentException], [commands.ClientException],
    [configuration.InvalidConfiguration] are not in this file; section 7 lists
    them as separate error kinds, each an ordinary error, so each derives
    directly from [Exception].  The built-in part is Python's. *)
Definition base (c : ExcClass) : option ExcClass :=
  match c with
  | BaseException => None
  | Exception | KeyboardInterrupt | SystemExit => Some BaseException
  | TypeError | RuntimeError
  | BuckException | EnvironmentException | ClientException
  | InvalidConfiguration | ClickException => Some Exception
  end.

Fixpoint issubclass_upto (depth : nat) (c d : ExcClass) : bool :=
  ExcClass_eqb c d ||
  match depth, base c with
  | S depth', Some b => issubclass_upto depth' b d
  | _, _ => false
  end.

(** The hierarchy above has height two. *)
Definition issubclass : ExcClass -> ExcClass -> bool := issubclass_upto 2.

(** A raised exception: its class and the text [str(error)] gives. *)
Record PyExc : Type := mkExc {
  exc_class : ExcClass;
  exc_message : string
}.

Definition isinstance (e : PyExc) (c : ExcClass) : bool :=
  issubclass (exc_class e) c.

Definition str (e : PyExc) : string := exc_message e.

(** ** Exit codes *)

(** Modelled from the spec: [commands.ExitCode] is declared outside this file;
    section 6 gives the taxonomy. *)
Inductive ExitCode : Type :=
| SUCCESS
| FAILURE
| BUCK_ERROR
| CONFIGURATION_ERROR.

(** ** Arguments and configuration *)

Definition Path : Type := string.

Module command_arguments.

(** The fields are those [pyre] passes to the constructor. *)
Record CommandArguments : Type := {
    local_configuration : option string;
    version : bool;
    debug : bool;
    sequential : bool;
    strict : bool;
    additional_checks : list string;
    show_error_traces : bool;
    output : string;
    enable_profiling : bool;
    enable_memory_profiling : bool;
    noninteractive : bool;
    logging_sections : option string;
    log_identifier : option string;
    logger : option string;
    formatter : option string;
    targets : list string;
    use_buck_builder : option bool;
    use_buck_source_database : option bool;
    source_directories : list string;
    filter_directory : option string;
    buck_mode : option string;
    no_saved_state : bool;
    search_path : list string;
    binary : option string;
    buck_builder_binary : option string;
    exclude : list string;
    typeshed : option string;
    save_initial_state_to : option string;
    load_initial_state_from : option string;
    changed_files_path : option string;
    saved_state_project : option string;
    dot_pyre_directory : option Path;
    features : option string
}.

(** [dataclasses.replace(arguments, local_configuration=root)]. *)
Definition replace_local_configuration
    (arguments : CommandArguments) (root : string) : CommandArguments :=
    {| local_configuration := Some root;
       version := version arguments;
       debug := debug arguments;
       sequential := sequential arguments;
       strict := strict arguments;
       additional_checks := additional_checks arguments;
       show_error_traces := show_error_traces arguments;
       output := output arguments;
       enable_profiling := enable_profiling arguments;
       enable_memory_profiling := enable_memory_profiling arguments;
       noninteractive := noninteractive arguments;
       logging_sections := logging_sections arguments;
       log_identifier := log_identifier arguments;
       logger := logger arguments;
       formatter := formatter arguments;
       targets := targets arguments;
       use_buck_builder := use_buck_builder arguments;
       use_buck_source_database := use_buck_source_database arguments;
       source_directories := source_directories arguments;
       filter_directory := filter_directory arguments;
       buck_mode := buck_mode arguments;
       no_saved_state := no_saved_state arguments;
       search_path := search_path arguments;
       binary := binary arguments;
       buck_builder_binary := buck_builder_binary arguments;
       exclude := exclude arguments;
       typeshed := typeshed arguments;
       save_initial_state_to := save_initial_state_to arguments;
       load_initial_state_from := load_initial_state_from arguments;
       changed_files_path := changed_files_path arguments;
       saved_state_project := saved_state_project arguments;
       dot_pyre_directory := dot_pyre_directory arguments;
       features := features arguments |}.

End command_arguments.
Import command_arguments(CommandArguments).

Module configuration_module.

(** Modelled from the spec: the class [configuration.Configuration] is
    declared outside this file; these are the attributes this file reads,
    with the types of section 3. *)
Record Configuration : Type := {
    local_root : string;
    source_directories : list string;
    targets : list string;
    log_directory : string;
    logger : option string;
    dot_pyre_directory : Path
}.

End configuration_module.
Import configuration_module(Configuration).

(** Truth value of an [Optional[str]]: [None] and the empty string are false. *)
Definition truthy (o : option string) : bool :=
  match o with
  | Some s => negb (String.length s =? 0)%nat
  | None => false
  end.

(** ** Commands *)

(** Modelled from the spec: [commands.Result]; only [error] is read here. *)
Record Result : Type := { error : option string }.

Inductive IncrementalStyle : Type := SHALLOW | FINE_GRAINED.

(** The constructor calls this file makes, with their keyword arguments. *)
Inductive Construction : Type :=
| Check (arguments : CommandArguments) (original_directory : string)
        (configuration : Configuration)
| Incremental (arguments : CommandArguments) (original_directory : string)
        (configuration : Configuration) (nonblocking : bool)
        (incremental_style : IncrementalStyle)
        (no_start_server no_watchman : bool).

(** ** The telemetry call *)

Module statistics_module.
Inductive LoggerCategory : Type := USAGE.

Record Integers : Type := {
    exit_code : ExitCode;
    runtime : Z
}.

Record Normals : Type := {
    root : string;
    cwd : string;
    client_version : string;
    command : string;
    client_exception : string;
    error_message : option string
}.

(** The keyword arguments of one [log_with_configuration] call. *)
Record Call : Type := {
    category : LoggerCategory;
    configuration : Configuration;
    integers : Integers;
    normals : Normals
}.

End statistics_module.

(** ** Outcomes and the trace *)

Inductive Outcome (A : Type) : Type :=
| Returned (a : A)
| Raised (e : PyExc).
Arguments Raised {A} e.

Inductive LogLevel : Type := DEBUG | WARNING | ERROR.

(** One entry per call of a collaborator, in the order the calls are made. *)
Inductive Event : Type :=
| EvCreateConfiguration (arguments : CommandArguments) (base_directory : Path)
| EvCacheGetAllItems (dot_pyre_directory : Path)
| EvPrompt (roots : list string)
| EvLog (level : LogLevel) (message : string)
| EvStdout (text : string)
| EvCheckNested (configuration : Configuration)
| EvStartLogging (noninteractive : bool) (log_directory : string)
| EvConstruct (call : Construction)
| EvRun (name : string)
| EvResult (name : string)
| EvCleanup (name : string)
| EvStatistics (call : statistics_module.Call)
| EvWhich (name : string)
| EvGetBinaryVersion
| EvClickShow (e : PyExc)
| EvLoggerEnter (noninteractive : bool)
| EvLoggerExit.

(** [int(x)] on a number: truncation toward zero. *)
Definition int (x : Q) : Z := Z.quot (Qnum x) (Zpos (Qden x)).

(** ** The monad *)

Section Monad.
Variable St : Type.

Definition M (A : Type) : Type := St -> St * Outcome A.

Definition ret {A} (a : A) : M A := fun s => (s, Returned a).

Definition raise {A} (e : PyExc) : M A := fun s => (s, Raised e).

Definition bind {A B} (m : M A) (k : A -> M B) : M B :=
    fun s =>
      match m s with
      | (s1, Returned a) => k a s1
      | (s1, Raised e) => (s1, Raised e)
      end.

  (** An [except] clause: the test on the raised exception and the body. *)
Definition Handler (A : Type) : Type := ((PyExc -> bool) * (PyExc -> M A))%type.

  (** The first clause whose test accepts [e]. *)
Fixpoint first_match {A} (handlers : list (Handler A)) (e : PyExc)
    : option (M A) :=
    match handlers with
    | [] => None
    | (test, body) :: rest =>
        if test e then Some (body e) else first_match rest e
    end.

  (** [try: body / except ...:]; an exception no clause accepts goes on. *)
Definition try_except {A} (body : M A) (handlers : list (Handler A)) : M A :=
    fun s =>
      match body s with
      | (s1, Returned a) => (s1, Returned a)
      | (s1, Raised e) =>
          match first_match handlers e with
          | Some handler => handler s1
          | None => (s1, Raised e)
          end
      end.

  (** [try: body / finally: final]: [final] runs whatever [body] did, and
      an exception of [final] replaces the outcome of [body]. *)
Definition try_finally {A} (body : M A) (final : M unit) : M A :=
    fun s =>
      match body s with
      | (s1, o) =>
          match final s1 with
          | (s2, Returned _) => (s2, o)
          | (s2, Raised e) => (s2, Raised e)
          end
      end.
End Monad.

Arguments ret {St A} a _.
Arguments raise {St A} e _.
Arguments bind {St A B} m k _.
Arguments try_except {St A} body handlers _.
Arguments try_finally {St A} body final _.

Declare Scope py_scope.
Delimit Scope py_scope with py.
Notation "x <- m ;; k" := (bind m (fun x => k))
  (at level 100, m at next level, right associativity) : py_scope.
Notation "m ;; k" := (bind m (fun _ => k))
  (at level 100, right associativity) : py_scope.
Local Open Scope py_scope.


(** The line feed of Python's string literals. *)
Definition newline : string := String (Ascii.ascii_of_nat 10) "".

(** First part of the warning of [_run_default_command]. *)
Definition No_watchman_binary_found : string :=
  "No watchman binary found. " ++ newline ++
  "To enable pyre incremental, you can install watchman: ".

(** ** What click hands to the callbacks *)

(** The subcommands modelled here: [check], the one the default command
    falls back to. *)
Inductive Subcommand : Type :=
| sub_check.

(** A parsed command line: the group's options, already assembled into the
    arguments record, and the subcommand named on it, if any. *)
Record Invocation : Type := {
  parsed_arguments : CommandArguments;
  invoked_subcommand : option Subcommand
}.

(** ** The world and the collaborators *)

Section Client.

(** State of what the commands act on (the command object and the server
    behind it). *)
Variable S : Type.

(** Modelled from the spec: the class [commands.Command] is declared outside
    this file.  Section 6 gives the contract: [run()] reports an exit code or
    raises, [result()] gives an optional result and [cleanup()] is safe to
    call after a partial or failed [run()]; [NAME] and [configuration] are the
    attributes [_log_statistics] reads. *)
Record Command : Type := {
  NAME : string;
  configuration : option Configuration;
  run : S -> S * Outcome ExitCode;
  result : S -> option Result;
  cleanup : S -> S
}.

Record World : Type := {
  trace : list Event;
  ticks : nat;
  ext : S
}.

(** Modelled from the spec: the modules [configuration], [log],
    [recently_used_configurations], [statistics], [commands], [version] and
    the libraries [time], [os], [shutil], [traceback], [click] are not in this
    file.  Each function of theirs that this file calls is a field; those that
    sections 4.1 and 4.3 let fail give an [Outcome]. *)
Record Collaborators : Type := {
  create_configuration : CommandArguments -> Path -> Outcome Configuration;
  check_nested_local_configuration : Configuration -> Outcome unit;
  start_logging_to_directory : bool -> string -> Outcome unit;
  get_binary_version : Configuration -> Outcome (option string);
  get_all_items : Path -> list string;
  prompt_user_for_local_root : list string -> option string;
  construct : Construction -> Command;
  click_parse : list string -> Outcome Invocation;
  which : string -> option string;
  getcwd : string;
  __version__ : string;
  time : nat -> Q;
  format_exc : PyExc -> string
}.

Variable env : Collaborators.

(** *** Calls of collaborators *)

Definition emit (e : Event) : M World unit :=
  fun w => ({| trace := trace w ++ [e]; ticks := ticks w; ext := ext w |},
            Returned tt).

Definition outcome {A} (o : Outcome A) : M World A := fun w => (w, o).

(** [time.time()]: the next reading of the clock. *)
Definition time_time : M World Q :=
  fun w => ({| trace := trace w; ticks := Datatypes.S (ticks w); ext := ext w |},
            Returned (time env (ticks w))).

Definition os_getcwd : M World string := ret (getcwd env).

Definition LOG_debug (message : string) : M World unit := emit (EvLog DEBUG message).
Definition LOG_warning (message : string) : M World unit := emit (EvLog WARNING message).
Definition LOG_error (message : string) : M World unit := emit (EvLog ERROR message).

Definition log_stdout_write (text : string) : M World unit := emit (EvStdout text).

Definition configuration_module_create_configuration
    (arguments : CommandArguments) (base_directory : Path) : M World Configuration :=
  emit (EvCreateConfiguration arguments base_directory) ;;
  outcome (create_configuration env arguments base_directory).

Definition configuration_module_check_nested_local_configuration
    (configuration : Configuration) : M World unit :=
  emit (EvCheckNested configuration) ;;
  outcome (check_nested_local_configuration env configuration).

Definition log_start_logging_to_directory
    (noninteractive : bool) (log_directory : string) : M World unit :=
  emit (EvStartLogging noninteractive log_directory) ;;
  outcome (start_logging_to_directory env noninteractive log_directory).

Definition Cache_get_all_items (dot_pyre_directory : Path) : M World (list string) :=
  emit (EvCacheGetAllItems dot_pyre_directory) ;;
  ret (get_all_items env dot_pyre_directory).

Definition recently_used_configurations_prompt_user_for_local_root
    (roots : list string) : M World (option string) :=
  emit (EvPrompt roots) ;;
  ret (prompt_user_for_local_root env roots).

Definition shutil_which (name : string) : M World (option string) :=
  emit (EvWhich name) ;;
  ret (which env name).

(** Modelled from the spec: the telemetry sink is fire-and-forget (section 2):
    the call is recorded and gives nothing back to the caller. *)
Definition statistics_module_log_with_configuration
    (call : statistics_module.Call) : M World unit :=
  emit (EvStatistics call).

Definition commands_construct (call : Construction) : M World Command :=
  emit (EvConstruct call) ;;
  ret (construct env call).

(** [command.run().exit_code()] *)
Definition command_run (command : Command) : M World ExitCode :=
  emit (EvRun (NAME command)) ;;
  fun w =>
    match run command (ext w) with
    | (s, o) => ({| trace := trace w; ticks := ticks w; ext := s |}, o)
    end.

(** [command.result()] *)
Definition command_result (command : Command) : M World (option Result) :=
  emit (EvResult (NAME command)) ;;
  fun w => (w, Returned (result command (ext w))).

(** [command.cleanup()] *)
Definition command_cleanup (command : Command) : M World unit :=
  emit (EvCleanup (NAME command)) ;;
  fun w => ({| trace := trace w; ticks := ticks w; ext := cleanup command (ext w) |},
            Returned tt).

(** ** [_log_statistics] *)

Definition _log_statistics
    (command : Command) (start_time : Q) (client_exception_message : string)
    (error_message : option string) (exit_code : ExitCode) (should_log : bool)
  : M World unit :=
  match configuration command with
  | Some configuration =>
      if should_log && truthy (configuration_module.logger configuration) then
        now <- time_time ;;
        cwd <- os_getcwd ;;
        statistics_module_log_with_configuration
          {| statistics_module.category := statistics_module.USAGE;
             statistics_module.configuration := configuration;
             statistics_module.integers :=
               {| statistics_module.exit_code := exit_code;
                  statistics_module.runtime := int ((now - start_time) * 1000) |};
             statistics_module.normals :=
               {| statistics_module.root := configuration_module.local_root configuration;
                  statistics_module.cwd := cwd;
                  statistics_module.client_version := __version__ env;
                  statistics_module.command := NAME command;
                  statistics_module.client_exception := client_exception_message;
                  statistics_module.error_message := error_message |} |}
      else ret tt
  | None => ret tt
  end.

(** ** [_show_pyre_version] *)

Definition _show_pyre_version (arguments : CommandArguments) : M World unit :=
  try_except
    (configuration <- configuration_module_create_configuration arguments "." ;;
     binary_version <- (emit EvGetBinaryVersion ;;
                        outcome (get_binary_version env configuration)) ;;
     match binary_version with
     | Some v =>
         if truthy binary_version
         then log_stdout_write ("Binary version: " ++ v ++ newline)
         else ret tt
     | None => ret tt
     end)
    [ (fun e => isinstance e Exception, fun _ => ret tt) ] ;;
  log_stdout_write ("Client version: " ++ __version__ env ++ newline).

(** ** [run_pyre_command] *)

(** The local variables of [run_pyre_command] that the [except] clauses
    assign and the [finally] clause reads, next to the world. *)
Record Frame : Type := {
  world : World;
  client_exception_message : string;
  should_log_statistics : bool;
  exit_code : ExitCode
}.

Definition lift {A} (m : M World A) : M Frame A :=
  fun f =>
    match m (world f) with
    | (w, o) => ({| world := w;
                    client_exception_message := client_exception_message f;
                    should_log_statistics := should_log_statistics f;
                    exit_code := exit_code f |}, o)
    end.

Definition read {A} (variable : Frame -> A) : M Frame A :=
  fun f => (f, Returned (variable f)).

Definition assign_client_exception_message (v : string) : M Frame unit :=
  fun f => ({| world := world f;
               client_exception_message := v;
               should_log_statistics := should_log_statistics f;
               exit_code := exit_code f |}, Returned tt).

Definition assign_exit_code (v : ExitCode) : M Frame unit :=
  fun f => ({| world := world f;
               client_exception_message := client_exception_message f;
               should_log_statistics := should_log_statistics f;
               exit_code := v |}, Returned tt).

(** Runs a function body whose locals start as given. *)
Definition with_locals {A} (message : string) (should_log : bool) (code : ExitCode)
    (body : M Frame A) : M World A :=
  fun w =>
    match body {| world := w;
                  client_exception_message := message;
                  should_log_statistics := should_log;
                  exit_code := code |} with
    | (f, o) => (world f, o)
    end.

Definition run_pyre_command
    (command : Command) (configuration : Configuration) (noninteractive : bool)
  : M World ExitCode :=
  start_time <- time_time ;;
  with_locals "" true FAILURE
    (try_finally
       (try_except
          (lift (configuration_module_check_nested_local_configuration configuration) ;;
           lift (log_start_logging_to_directory noninteractive
                   (configuration_module.log_directory configuration)) ;;
           code <- lift (command_run command) ;;
           assign_exit_code code)
          [ (fun error => isinstance error BuckException
                          || isinstance error EnvironmentException,
             fun error =>
               assign_client_exception_message (str error) ;;
               assign_exit_code FAILURE ;;
               if isinstance error BuckException
               then assign_exit_code BUCK_ERROR
               else ret tt);
            (fun error => isinstance error ClientException,
             fun error =>
               assign_client_exception_message (str error) ;;
               assign_exit_code FAILURE);
            (fun error => isinstance error Exception,
             fun error =>
               assign_client_exception_message (format_exc env error) ;;
               assign_exit_code FAILURE);
            (fun error => isinstance error KeyboardInterrupt,
             fun error =>
               lift (LOG_warning "Interrupted by user") ;;
               lift (LOG_debug (format_exc env error)) ;;
               assign_exit_code SUCCESS) ])
       (message <- read client_exception_message ;;
        (if (0 <? String.length message)%nat
         then lift (LOG_error message)
         else ret tt) ;;
        result <- lift (command_result command) ;;
        let error_message :=
          match result with
          | Some r => error r
          | None => None
          end in
        lift (command_cleanup command) ;;
        code <- read exit_code ;;
        should_log <- read should_log_statistics ;;
        lift (_log_statistics command start_time message error_message code should_log)) ;;
     read exit_code).

(** ** [_create_configuration_with_retry] *)

(** [len(c.source_directories) > 0 or len(c.targets) > 0] *)
Definition has_sources_or_targets (configuration : Configuration) : bool :=
  (0 <? List.length (configuration_module.source_directories configuration))%nat
  || (0 <? List.length (configuration_module.targets configuration))%nat.

Definition _create_configuration_with_retry
    (arguments : CommandArguments) (base_directory : Path) : M World Configuration :=
  configuration <- configuration_module_create_configuration arguments base_directory ;;
  if has_sources_or_targets configuration then ret configuration else
  let error_message := "No buck targets or source directories to analyze." in
  recently_used_local_roots <-
    Cache_get_all_items (configuration_module.dot_pyre_directory configuration) ;;
  if (List.length recently_used_local_roots =? 0)%nat then
    raise (mkExc InvalidConfiguration error_message)
  else
  LOG_warning error_message ;;
  local_root_for_rerun <-
    recently_used_configurations_prompt_user_for_local_root recently_used_local_roots ;;
  match local_root_for_rerun with
  | None =>
      raise (mkExc InvalidConfiguration
               "Cannot determine which recent local root to rerun. ")
  | Some local_root_for_rerun =>
      LOG_warning ("Restarting pyre under local root `" ++ local_root_for_rerun
                   ++ "`...") ;;
      LOG_warning ("Hint: To avoid this prompt, run `pyre -l " ++ local_root_for_rerun
                   ++ "` or `cd " ++ local_root_for_rerun ++ " && pyre`.") ;;
      new_configuration <-
        configuration_module_create_configuration
          (command_arguments.replace_local_configuration arguments local_root_for_rerun)
          base_directory ;;
      if has_sources_or_targets new_configuration then ret new_configuration
      else raise (mkExc InvalidConfiguration error_message)
  end.

(** ** The runners of the default commands *)

Definition _run_check_command (arguments : CommandArguments) : M World ExitCode :=
  configuration <- _create_configuration_with_retry arguments "." ;;
  original_directory <- os_getcwd ;;
  command <- commands_construct (Check arguments original_directory configuration) ;;
  run_pyre_command command configuration (command_arguments.noninteractive arguments).

Definition _run_incremental_command
    (arguments : CommandArguments) (nonblocking : bool)
    (incremental_style : IncrementalStyle) (no_start_server no_watchman : bool)
  : M World ExitCode :=
  configuration <- _create_configuration_with_retry arguments "." ;;
  original_directory <- os_getcwd ;;
  command <- commands_construct
               (Incremental arguments original_directory configuration nonblocking
                  incremental_style no_start_server no_watchman) ;;
  run_pyre_command command configuration (command_arguments.noninteractive arguments).

Definition _run_default_command (arguments : CommandArguments) : M World ExitCode :=
  watchman <- shutil_which "watchman" ;;
  if truthy watchman then
    _run_incremental_command arguments false FINE_GRAINED false false
  else
    let watchman_link := "https://facebook.github.io/watchman/docs/install" in
    LOG_warning (No_watchman_binary_found ++ watchman_link) ;;
    LOG_warning "Defaulting to non-incremental check." ;;
    _run_check_command arguments.

(** ** The click group and its subcommands *)

(** The callback of the group.  It gives its return value and the object it
    left in the click context ([context.obj], a dictionary whose only key is
    [arguments]). *)
Definition pyre (invoked : option Subcommand) (arguments : CommandArguments)
  : M World (ExitCode * option CommandArguments) :=
  if command_arguments.version arguments then
    _show_pyre_version arguments ;;
    ret (SUCCESS, None)
  else
    match invoked with
    | None =>
        code <- _run_default_command arguments ;;
        ret (code, Some arguments)
    | Some _ => ret (SUCCESS, Some arguments)
    end.

(** [context.obj["arguments"]]; subscripting [None] is a [TypeError]. *)
Definition context_obj_arguments (obj : option CommandArguments)
  : M World CommandArguments :=
  match obj with
  | Some arguments => ret arguments
  | None => raise (mkExc TypeError "'NoneType' object is not subscriptable")
  end.

Definition check (obj : option CommandArguments) : M World ExitCode :=
  arguments <- context_obj_arguments obj ;;
  _run_check_command arguments.

(** [pyre(argv, auto_envvar_prefix="PYRE", standalone_mode=False)]: click
    parses the command line, calls the callback of the group and then, when a
    subcommand is named, the callback of that subcommand, whose return value
    is the value of the call. *)
Definition pyre_call (argv : list string) : M World ExitCode :=
  invocation <- outcome (click_parse env argv) ;;
  group <- pyre (invoked_subcommand invocation) (parsed_arguments invocation) ;;
  match invoked_subcommand invocation with
  | None => ret (fst group)
  | Some sub_check => check (snd group)
  end.

(** ** [main] *)

(** [with log.configured_logger(noninteractive):] *)
Definition with_configured_logger {A} (noninteractive : bool) (body : M World A)
  : M World A :=
  emit (EvLoggerEnter noninteractive) ;;
  try_finally body (emit EvLoggerExit).

Definition main (argv : list string) : M World ExitCode :=
  let noninteractive :=
    existsb (String.eqb "-n") argv || existsb (String.eqb "--noninteractive") argv in
  with_configured_logger noninteractive
    (try_except
       (pyre_call argv)
       [ (fun error => isinstance error EnvironmentException,
          fun error => LOG_error (str error) ;; ret FAILURE);
         (fun error => isinstance error InvalidConfiguration,
          fun error => LOG_error (str error) ;; ret CONFIGURATION_ERROR);
         (fun error => isinstance error ClickException,
          fun error => emit (EvClickShow error) ;; ret FAILURE) ]).

(** ** Reading a trace *)

(** The world once the given calls have been recorded. *)
Definition record (w : World) (events : list Event) : World :=
  {| trace := trace w ++ events; ticks := ticks w; ext := ext w |}.

Definition count (p : Event -> bool) (events : list Event) : nat :=
  List.length (filter p events).

Definition is_error_log (e : Event) : bool :=
  match e with EvLog ERROR _ => true | _ => false end.

Definition is_result (e : Event) : bool :=
  match e with EvResult _ => true | _ => false end.

Definition is_cleanup (e : Event) : bool :=
  match e with EvCleanup _ => true | _ => false end.

Definition is_statistics (e : Event) : bool :=
  match e with EvStatistics _ => true | _ => false end.

Definition is_create_configuration (e : Event) : bool :=
  match e with EvCreateConfiguration _ _ => true | _ => false end.

Definition is_cache_read (e : Event) : bool :=
  match e with EvCacheGetAllItems _ => true | _ => false end.

Definition is_prompt (e : Event) : bool :=
  match e with EvPrompt _ => true | _ => false end.

Definition is_construct (e : Event) : bool :=
  match e with EvConstruct _ => true | _ => false end.

Definition is_run (e : Event) : bool :=
  match e with EvRun _ => true | _ => false end.

(** The four actions that end a run of [run_pyre_command]. *)
Definition is_terminal_action (e : Event) : bool :=
  is_error_log e || is_result e || is_cleanup e || is_statistics e.

(** The texts logged at error level, in order. *)
Definition error_logs (events : list Event) : list string :=
  flat_map (fun e => match e with EvLog ERROR text => [text] | _ => [] end) events.

(** The telemetry calls made, in order. *)
Definition statistics_calls (events : list Event) : list statistics_module.Call :=
  flat_map (fun e => match e with EvStatistics call => [call] | _ => [] end) events.

(** The terminal actions of a run are: the error log of some client-exception
    text, then [first], then [second], then at most one telemetry call. *)
Definition terminal_order (first second : Event) (events : list Event) : Prop :=
  exists text calls,
    filter is_terminal_action events
    = (if (0 <? String.length text)%nat then [EvLog ERROR text] else [])
      ++ [first; second] ++ map EvStatistics calls
    /\ (List.length calls <= 1)%nat.

(** ** The specification's wording, for comparison with the code *)

(** Section 4.3, step 5: the rules in the order given there, the first that
    applies wins.  The result is the exit code and the client-exception text;
    [None] when no rule applies. *)
Definition classify (o : Outcome ExitCode) : option (ExitCode * string) :=
  match o with
  | Returned reported => Some (reported, "")
  | Raised e =>
      if isinstance e BuckException then Some (BUCK_ERROR, str e)
      else if isinstance e EnvironmentException then Some (FAILURE, str e)
      else if isinstance e ClientException then Some (FAILURE, str e)
      else if isinstance e Exception then Some (FAILURE, format_exc env e)
      else if isinstance e KeyboardInterrupt then Some (SUCCESS, "")
      else None
  end.

(** What the guarded statements of [run_pyre_command] give when the command
    is in state [s]: the first of them to raise decides. *)
Definition guarded_outcome (command : Command) (configuration : Configuration)
    (noninteractive : bool) (s : S) : Outcome ExitCode :=
  match check_nested_local_configuration env configuration with
  | Raised e => Raised e
  | Returned _ =>
      match start_logging_to_directory env noninteractive
              (configuration_module.log_directory configuration) with
      | Raised e => Raised e
      | Returned _ => snd (run command s)
      end
  end.

(** Section 4.3, step 6: the configuration the command owns designates a
    telemetry logger. *)
Definition designates_logger (command : Command) : bool :=
  match configuration command with
  | Some c => truthy (configuration_module.logger c)
  | None => false
  end.

(** [result.error if result else None] *)
Definition error_of (result : option Result) : option string :=
  match result with
  | Some r => error r
  | None => None
  end.

(** ** A run of [run_pyre_command], part by part

    The parts of the trace of one run and of its final state, as functions of
    what the collaborators answer; [run_pyre_command_unfolds] below proves
    that the code produces exactly these. *)

(** The calls of the guarded statements. *)
Definition guarded_events (command : Command) (configuration : Configuration)
    (noninteractive : bool) : list Event :=
  EvCheckNested configuration ::
  match check_nested_local_configuration env configuration with
  | Raised _ => []
  | Returned _ =>
      EvStartLogging noninteractive (configuration_module.log_directory configuration) ::
      match start_logging_to_directory env noninteractive
              (configuration_module.log_directory configuration) with
      | Raised _ => []
      | Returned _ => [EvRun (NAME command)]
      end
  end.

(** The state of the command after the guarded statements. *)
Definition guarded_state (command : Command) (configuration : Configuration)
    (noninteractive : bool) (s : S) : S :=
  match check_nested_local_configuration env configuration,
        start_logging_to_directory env noninteractive
          (configuration_module.log_directory configuration) with
  | Returned _, Returned _ => fst (run command s)
  | _, _ => s
  end.

(** The exit code and the client-exception text the [finally] clause sees:
    those of the rule that applies, the initial ones when none does. *)
Definition verdict (o : Outcome ExitCode) : ExitCode * string :=
  match classify o with
  | Some decided => decided
  | None => (FAILURE, "")
  end.

(** What the clause for [KeyboardInterrupt] logs. *)
Definition interruption_events (o : Outcome ExitCode) : list Event :=
  match o with
  | Raised e =>
      if isinstance e Exception then []
      else if isinstance e KeyboardInterrupt
      then [EvLog WARNING "Interrupted by user"; EvLog DEBUG (format_exc env e)]
      else []
  | Returned _ => []
  end.

(** [LOG.error] of a non-empty client-exception text. *)
Definition error_log (text : string) : list Event :=
  if (0 <? String.length text)%nat then [EvLog ERROR text] else [].

(** Section 6, the telemetry record: exit code, elapsed milliseconds between
    the two readings of the clock, root, working directory, client version,
    command name, client-exception text and error text of the result. *)
Definition usage_call (command : Command) (c : Configuration) (started now : Q)
    (code : ExitCode) (text : string) (error_text : option string)
  : statistics_module.Call :=
  {| statistics_module.category := statistics_module.USAGE;
     statistics_module.configuration := c;
     statistics_module.integers :=
       {| statistics_module.exit_code := code;
          statistics_module.runtime := int ((now - started) * 1000) |};
     statistics_module.normals :=
       {| statistics_module.root := configuration_module.local_root c;
          statistics_module.cwd := getcwd env;
          statistics_module.client_version := __version__ env;
          statistics_module.command := NAME command;
          statistics_module.client_exception := text;
          statistics_module.error_message := error_text |} |}.

(** The telemetry calls of one run: one when a logger is designated. *)
Definition usage_calls (command : Command) (started now : Q)
    (code : ExitCode) (text : string) (error_text : option string)
  : list statistics_module.Call :=
  match configuration command with
  | Some c =>
      if truthy (configuration_module.logger c)
      then [usage_call command c started now code text error_text]
      else []
  | None => []
  end.

(** What the run gives back: the exit code when a rule applies, the
    exception itself when none does. *)
Definition run_result (o : Outcome ExitCode) : Outcome ExitCode :=
  match classify o, o with
  | Some (code, _), _ => Returned code
  | None, Raised e => Raised e
  | None, Returned reported => Returned reported
  end.

End Client.

(** Section 4.1, step 4: two argument records that differ at most in the
    local root. *)
Definition same_but_local_configuration (a b : CommandArguments) : Prop :=
  command_arguments.version a = command_arguments.version b /\
  command_arguments.debug a = command_arguments.debug b /\
  command_arguments.sequential a = command_arguments.sequential b /\
  command_arguments.strict a = command_arguments.strict b /\
  command_arguments.additional_checks a = command_arguments.additional_checks b /\
  command_arguments.show_error_traces a = command_arguments.show_error_traces b /\
  command_arguments.output a = command_arguments.output b /\
  command_arguments.enable_profiling a = command_arguments.enable_profiling b /\
  command_arguments.enable_memory_profiling a = command_arguments.enable_memory_profiling b /\
  command_arguments.noninteractive a = command_arguments.noninteractive b /\
  command_arguments.logging_sections a = command_arguments.logging_sections b /\
  command_arguments.log_identifier a = command_arguments.log_identifier b /\
  command_arguments.logger a = command_arguments.logger b /\
  command_arguments.formatter a = command_arguments.formatter b /\
  command_arguments.targets a = command_arguments.targets b /\
  command_arguments.use_buck_builder a = command_arguments.use_buck_builder b /\
  command_arguments.use_buck_source_database a = command_arguments.use_buck_source_database b /\
  command_arguments.source_directories a = command_arguments.source_directories b /\
  command_arguments.filter_directory a = command_arguments.filter_directory b /\
  command_arguments.buck_mode a = command_arguments.buck_mode b /\
  command_arguments.no_saved_state a = command_arguments.no_saved_state b /\
  command_arguments.search_path a = command_arguments.search_path b /\
  command_arguments.binary a = command_arguments.binary b /\
  command_arguments.buck_builder_binary a = command_arguments.buck_builder_binary b /\
  command_arguments.exclude a = command_arguments.exclude b /\
  command_arguments.typeshed a = command_arguments.typeshed b /\
  command_arguments.save_initial_state_to a = command_arguments.save_initial_state_to b /\
  command_arguments.load_initial_state_from a = command_arguments.load_initial_state_from b /\
  command_arguments.changed_files_path a = command_arguments.changed_files_path b /\
  command_arguments.saved_state_project a = command_arguments.saved_state_project b /\
  command_arguments.dot_pyre_directory a = command_arguments.dot_pyre_directory b /\
  command_arguments.features a = command_arguments.features b.

(** ** The subcommands that take the configuration as it is built *)

(** The constructor calls of [kill], [persistent], [rage], [servers] and
    [stop], with their keyword arguments. *)
Inductive ServerConstruction : Type :=
| Kill (arguments : CommandArguments) (original_directory : string)
       (configuration : Configuration) (with_fire : bool)
| Persistent (arguments : CommandArguments) (original_directory : string)
       (configuration : Configuration) (no_watchman : bool)
| Rage (arguments : CommandArguments) (original_directory : string)
       (configuration : Configuration) (output_path : option string)
| Servers (arguments : CommandArguments) (original_directory : string)
       (configuration : Configuration) (subcommand : string)
| Stop (arguments : CommandArguments) (original_directory : string)
       (configuration : Configuration).

Section Subcommands.

Variable S : Type.
Variable env : Collaborators S.

(** What the five constructors build; their classes are declared in
    [commands], outside this file. *)
Variable construct_server : ServerConstruction -> Command S.

(** [str(commands.IncrementalStyle.X)], the names the option
    [--incremental-style] offers; the enumeration is declared in [commands]. *)
Variable IncrementalStyle_str : IncrementalStyle -> string.

Definition incremental (obj : option CommandArguments) (nonblocking : bool)
    (incremental_style : string) (no_start no_watchman : bool)
  : M (World S) ExitCode :=
  arguments <- context_obj_arguments obj ;;
  _run_incremental_command env arguments nonblocking
    (if String.eqb incremental_style (IncrementalStyle_str SHALLOW)
     then SHALLOW else FINE_GRAINED)
    no_start no_watchman.

Definition kill (obj : option CommandArguments) (with_fire : bool)
  : M (World S) ExitCode :=
  command_argument <- context_obj_arguments obj ;;
  configuration <- configuration_module_create_configuration env command_argument "." ;;
  original_directory <- os_getcwd env ;;
  run_pyre_command env
    (construct_server (Kill command_argument original_directory configuration with_fire))
    configuration (command_arguments.noninteractive command_argument).

Definition persistent (obj : option CommandArguments) (no_watchman : bool)
  : M (World S) ExitCode :=
  command_argument <- context_obj_arguments obj ;;
  configuration <- configuration_module_create_configuration env command_argument "." ;;
  original_directory <- os_getcwd env ;;
  run_pyre_command env
    (construct_server
       (Persistent command_argument original_directory configuration no_watchman))
    configuration true.

Definition rage (obj : option CommandArguments) (output_file : option string)
  : M (World S) ExitCode :=
  command_argument <- context_obj_arguments obj ;;
  configuration <- configuration_module_create_configuration env command_argument "." ;;
  original_directory <- os_getcwd env ;;
  run_pyre_command env
    (construct_server (Rage command_argument original_directory configuration output_file))
    configuration (command_arguments.noninteractive command_argument).

Definition servers (obj : option CommandArguments) (subcommand : string)
  : M (World S) ExitCode :=
  command_argument <- context_obj_arguments obj ;;
  configuration <- configuration_module_create_configuration env command_argument "." ;;
  original_directory <- os_getcwd env ;;
  run_pyre_command env
    (construct_server (Servers command_argument original_directory configuration subcommand))
    configuration (command_arguments.noninteractive command_argument).

Definition stop (obj : option CommandArguments) : M (World S) ExitCode :=
  command_argument <- context_obj_arguments obj ;;
  configuration <- configuration_module_create_configuration env command_argument "." ;;
  original_directory <- os_getcwd env ;;
  run_pyre_command env
    (construct_server (Stop command_argument original_directory configuration))
    configuration (command_arguments.noninteractive command_argument).

End Subcommands.

(** ** [get_profile_output], the local function of [profile] *)

Section Profile.

(** The enumeration [commands.ProfileOutput], declared outside this file:
    its members in the order the [for] loop meets them, and [str] on them. *)
Variable ProfileOutput : Type.
Variable ProfileOutput_items : list ProfileOutput.
Variable ProfileOutput_str : ProfileOutput -> string.

(** The loop over the members that are left; [inr] is the message of the
    [ValueError] raised when the loop ends. *)
Fixpoint get_profile_output_from (items : list ProfileOutput) (profile_output : string)
  : ProfileOutput + string :=
  match items with
  | [] => inr ("Unrecognized value for --profile-output: " ++ profile_output)%string
  | item :: rest =>
      if String.eqb (ProfileOutput_str item) profile_output
      then inl item
      else get_profile_output_from rest profile_output
  end.

Definition get_profile_output (profile_output : string) : ProfileOutput + string :=
  get_profile_output_from ProfileOutput_items profile_output.

End Profile.

(** ** More readers of a trace *)

Definition is_start_logging (e : Event) : bool :=
  match e with EvStartLogging _ _ => true | _ => false end.

(** A call of [start_logging_to_directory] in interactive mode. *)
Definition is_interactive_logging (e : Event) : bool :=
  match e with EvStartLogging false _ => true | _ => false end.

Definition is_logger_bracket (e : Event) : bool :=
  match e with EvLoggerEnter _ | EvLoggerExit => true | _ => false end.

(** The texts written to standard output, in order. *)
Definition stdout_writes (events : list Event) : list string :=
  flat_map (fun e => match e with EvStdout text => [text] | _ => [] end) events.

(** No event that satisfies [p]. *)
Definition none (p : Event -> bool) (events : list Event) : Prop :=
  Forall (fun e => p e = false) events.

(** Whatever the world, the computation only adds to the trace, and adds no
    event that satisfies [p]. *)
Definition never_emits {S A} (p : Event -> bool) (m : M (World S) A) : Prop :=
  forall w, exists events, trace (fst (m w)) = trace w ++ events /\ none p events.

(** ** Concrete inputs *)

Definition example_arguments : CommandArguments :=
  {| command_arguments.local_configuration := None;
     command_arguments.version := false;
     command_arguments.debug := false;
     command_arguments.sequential := false;
     command_arguments.strict := false;
     command_arguments.additional_checks := [];
     command_arguments.show_error_traces := false;
     command_arguments.output := "text";
     command_arguments.enable_profiling := false;
     command_arguments.enable_memory_profiling := false;
     command_arguments.noninteractive := true;
     command_arguments.logging_sections := None;
     command_arguments.log_identifier := None;
     command_arguments.logger := None;
     command_arguments.formatter := None;
     command_arguments.targets := [];
     command_arguments.use_buck_builder := None;
     command_arguments.use_buck_source_database := None;
     command_arguments.source_directories := [];
     command_arguments.filter_directory := None;
     command_arguments.buck_mode := None;
     command_arguments.no_saved_state := false;
     command_arguments.search_path := [];
     command_arguments.binary := None;
     command_arguments.buck_builder_binary := None;
     command_arguments.exclude := [];
     command_arguments.typeshed := None;
     command_arguments.save_initial_state_to := None;
     command_arguments.load_initial_state_from := None;
     command_arguments.changed_files_path := None;
     command_arguments.saved_state_project := None;
     command_arguments.dot_pyre_directory := None;
     command_arguments.features := None |}.

(** A project configuration with nothing to analyse. *)
Definition empty_configuration : Configuration :=
  {| configuration_module.local_root := "";
     configuration_module.source_directories := [];
     configuration_module.targets := [];
     configuration_module.log_directory := "/repo/.pyre";
     configuration_module.logger := None;
     configuration_module.dot_pyre_directory := "/repo/.pyre" |}.

(** The configuration of the local root [/repo/a], with a telemetry logger. *)
Definition local_configuration_a : Configuration :=
  {| configuration_module.local_root := "/repo/a";
     configuration_module.source_directories := ["/repo/a/src"];
     configuration_module.targets := [];
     configuration_module.log_directory := "/repo/.pyre/a";
     configuration_module.logger := Some "/usr/bin/scribe_cat";
     configuration_module.dot_pyre_directory := "/repo/.pyre" |}.

(** A command over a state that holds the result of the last run: [run]
    stores a result and gives [behaviour], [cleanup] drops the result. *)
Definition example_command (behaviour : Outcome ExitCode) : Command (option Result) :=
  {| NAME := "check";
     configuration := Some local_configuration_a;
     run := fun _ => (Some {| error := Some "1 error" |}, behaviour);
     result := fun s => s;
     cleanup := fun _ => None |}.

(** Collaborators of a repository whose only local root is [/repo/a]:
    [roots] is what the cache holds, [choice] what the operator answers,
    [behaviour] what commands do and [watchman] where the binary is. *)
Definition example_collaborators (roots : list string) (choice : option string)
    (behaviour : Outcome ExitCode) (watchman : option string)
  : Collaborators (option Result) :=
  {| create_configuration := fun arguments _ =>
       match command_arguments.local_configuration arguments with
       | Some "/repo/a" => Returned local_configuration_a
       | _ => Returned empty_configuration
       end;
     check_nested_local_configuration := fun _ => Returned tt;
     start_logging_to_directory := fun _ _ => Returned tt;
     get_binary_version := fun _ => Returned None;
     get_all_items := fun _ => roots;
     prompt_user_for_local_root := fun _ => choice;
     construct := fun _ => example_command behaviour;
     click_parse := fun argv =>
       Returned {| parsed_arguments := example_arguments;
                   invoked_subcommand :=
                     if existsb (String.eqb "check") argv then Some sub_check else None |};
     which := fun _ => watchman;
     getcwd := "/repo";
     __version__ := "0.0.59";
     time := fun n => (Z.of_nat n * 3 # 2)%Q;
     format_exc := fun e => ("Traceback (most recent call last): " ++ str e)%string |}.

Definition example_world : World (option Result) :=
  {| trace := []; ticks := 0; ext := None |}.

Definition query_failed : PyExc := mkExc BuckException "query failed".

(** The same collaborators with other answers of [create_configuration],
    [check_nested_local_configuration] and the click parser. *)
Definition example_collaborators_with
    (create : CommandArguments -> Path -> Outcome Configuration)
    (nested : Configuration -> Outcome unit)
    (parse : list string -> Outcome Invocation)
    (behaviour : Outcome ExitCode)
  : Collaborators (option Result) :=
  {| create_configuration := create;
     check_nested_local_configuration := nested;
     start_logging_to_directory := fun _ _ => Returned tt;
     get_binary_version := fun _ => Returned (Some "0.0.58");
     get_all_items := fun _ => [];
     prompt_user_for_local_root := fun _ => None;
     construct := fun _ => example_command behaviour;
     click_parse := parse;
     which := fun _ => Some "/usr/bin/watchman";
     getcwd := "/repo";
     __version__ := "0.0.59";
     time := fun n => (Z.of_nat n * 3 # 2)%Q;
     format_exc := fun e => ("Traceback (most recent call last): " ++ str e)%string |}.

(** [pyre --version check], as click parses it. *)
Definition version_and_check : Invocation :=
  {| parsed_arguments :=
       {| command_arguments.local_configuration := None;
          command_arguments.version := true;
          command_arguments.debug := false;
          command_arguments.sequential := false;
          command_arguments.strict := false;
          command_arguments.additional_checks := [];
          command_arguments.show_error_traces := false;
          command_arguments.output := "text";
          command_arguments.enable_profiling := false;
          command_arguments.enable_memory_profiling := false;
          command_arguments.noninteractive := false;
          command_arguments.logging_sections := None;
          command_arguments.log_identifier := None;
          command_arguments.logger := None;
          command_arguments.formatter := None;
          command_arguments.targets := [];
          command_arguments.use_buck_builder := None;
          command_arguments.use_buck_source_database := None;
          command_arguments.source_directories := [];
          command_arguments.filter_directory := None;
          command_arguments.buck_mode := None;
          command_arguments.no_saved_state := false;
          command_arguments.search_path := [];
          command_arguments.binary := None;
          command_arguments.buck_builder_binary := None;
          command_arguments.exclude := [];
          command_arguments.typeshed := None;
          command_arguments.save_initial_state_to := None;
          command_arguments.load_initial_state_from := None;
          command_arguments.changed_files_path := None;
          command_arguments.saved_state_project := None;
          command_arguments.dot_pyre_directory := None;
          command_arguments.features := None |};
     invoked_subcommand := Some sub_check |}.

Definition example_server : ServerConstruction -> Command (option Result) :=
  fun _ => example_command (Returned SUCCESS).

Definition example_style_names (style : IncrementalStyle) : string :=
  match style with
  | SHALLOW => "shallow"
  | FINE_GRAINED => "fine_grained"
  end.

(** Collaborators whose clock is set back by one second between its first
    and its second reading. *)
Definition stepping_back_collaborators : Collaborators (option Result) :=
  {| create_configuration := fun _ _ => Returned local_configuration_a;
     check_nested_local_configuration := fun _ => Returned tt;
     start_logging_to_directory := fun _ _ => Returned tt;
     get_binary_version := fun _ => Returned None;
     get_all_items := fun _ => [];
     prompt_user_for_local_root := fun _ => None;
     construct := fun _ => example_command (Returned SUCCESS);
     click_parse := fun _ => Raised (mkExc ClickException "usage");
     which := fun _ => None;
     getcwd := "/repo";
     __version__ := "0.0.59";
     time := fun n => match n with O => (10 # 1)%Q | _ => (9 # 1)%Q end;
     format_exc := fun e => ("Traceback (most recent call last): " ++ str e)%string |}.


(** ** Proof automation *)

Ltac unfold_lifecycle :=
  unfold run_pyre_command, with_locals, try_finally, try_except, lift, read,
    assign_exit_code, assign_client_exception_message,
    configuration_module_check_nested_local_configuration,
    log_start_logging_to_directory, command_run, command_result, command_cleanup,
    _log_statistics, statistics_module_log_with_configuration, time_time, os_getcwd,
    LOG_error, LOG_warning, LOG_debug, emit, outcome, bind, ret, raise.

Ltac unfold_parts :=
  unfold guarded_events, guarded_state, guarded_outcome, interruption_events,
    error_log, usage_calls, usage_call, run_result, verdict, classify, error_of.

(** Splits on the innermost scrutinee of a [match] of the goal. *)
Ltac split_match :=
  match goal with
  | |- context [match ?x with _ => _ end] =>
      lazymatch x with
      | context [match _ with _ => _ end] => fail
      | _ => destruct x eqn:?; cbn
      end
  end.

Ltac tidy_trace := repeat rewrite <- app_assoc; cbn.

Section Lifecycle.
Variable S : Type.
Variable env : Collaborators S.

Lemma run_pyre_command_unfolds
    (command : Command S) (configuration : Configuration) (noninteractive : bool)
    (w : World S) :
  let o := guarded_outcome env command configuration noninteractive (ext w) in
  let s := guarded_state env command configuration noninteractive (ext w) in
  let started := time env (ticks w) in
  let now := time env (Datatypes.S (ticks w)) in
  let calls := usage_calls env command started now (fst (verdict env o))
                 (snd (verdict env o)) (error_of (result command s)) in
  run_pyre_command env command configuration noninteractive w =
  ({| trace := trace w
        ++ guarded_events env command configuration noninteractive
        ++ interruption_events env o
        ++ error_log (snd (verdict env o))
        ++ [EvResult (NAME command); EvCleanup (NAME command)]
        ++ map EvStatistics calls;
      ticks := List.length calls + Datatypes.S (ticks w);
      ext := cleanup command s |},
   run_result env o).
Proof.
  cbv zeta. unfold_lifecycle. unfold_parts. cbn.
  destruct (check_nested_local_configuration env configuration) as [[]|e1] eqn:E1; cbn.
  destruct (start_logging_to_directory env noninteractive _) as [[]|e2] eqn:E2; cbn.
  destruct (run command (ext w)) as [s [code|e3]] eqn:E3; cbn.
  - repeat split_match; tidy_trace; reflexivity.
  - destruct e3 as [[] ?]; cbn; repeat split_match; tidy_trace; reflexivity.
  - destruct e2 as [[] ?]; cbn; repeat split_match; tidy_trace; reflexivity.
  - destruct e1 as [[] ?]; cbn; repeat split_match; tidy_trace; reflexivity.
Qed.

(** *** Facts on the parts of a run *)

Lemma count_app (p : Event -> bool) (l1 l2 : list Event) :
  count p (l1 ++ l2) = (count p l1 + count p l2)%nat.
Proof. unfold count. now rewrite filter_app, length_app. Qed.

Lemma statistics_calls_app (l1 l2 : list Event) :
  statistics_calls (l1 ++ l2) = statistics_calls l1 ++ statistics_calls l2.
Proof. apply flat_map_app. Qed.

Lemma error_logs_app (l1 l2 : list Event) :
  error_logs (l1 ++ l2) = error_logs l1 ++ error_logs l2.
Proof. apply flat_map_app. Qed.

Lemma statistics_calls_map (calls : list statistics_module.Call) :
  statistics_calls (map EvStatistics calls) = calls.
Proof. induction calls as [|call calls IH]; cbn; [reflexivity | now f_equal]. Qed.

Lemma error_logs_map (calls : list statistics_module.Call) :
  error_logs (map EvStatistics calls) = [].
Proof. induction calls as [|call calls IH]; cbn; auto. Qed.

Lemma filter_terminal_map (calls : list statistics_module.Call) :
  filter is_terminal_action (map EvStatistics calls) = map EvStatistics calls.
Proof. induction calls as [|call calls IH]; cbn; [reflexivity | now f_equal]. Qed.

Lemma count_cleanup_map (calls : list statistics_module.Call) :
  count is_cleanup (map EvStatistics calls) = 0%nat.
Proof. induction calls as [|call calls IH]; cbn; auto. Qed.

Lemma guarded_events_quiet command configuration noninteractive :
  let events := guarded_events env command configuration noninteractive in
  filter is_terminal_action events = [] /\ count is_cleanup events = 0%nat
  /\ error_logs events = [] /\ statistics_calls events = [].
Proof. unfold guarded_events; repeat split_match; auto. Qed.

Lemma interruption_events_quiet (o : Outcome ExitCode) :
  let events := interruption_events env o in
  filter is_terminal_action events = [] /\ count is_cleanup events = 0%nat
  /\ error_logs events = [] /\ statistics_calls events = [].
Proof. unfold interruption_events; repeat split_match; auto. Qed.

Lemma error_log_facts (text : string) :
  filter is_terminal_action (error_log text) = error_log text
  /\ count is_cleanup (error_log text) = 0%nat
  /\ error_logs (error_log text) = (if (0 <? String.length text)%nat then [text] else [])
  /\ statistics_calls (error_log text) = [].
Proof. unfold error_log; split_match; auto. Qed.

Lemma usage_calls_length command started now code text error_text :
  List.length (usage_calls env command started now code text error_text)
  = if designates_logger command then 1%nat else 0%nat.
Proof. unfold usage_calls, designates_logger; repeat split_match; auto. Qed.

(** [int] of a non-negative number is non-negative. *)
Lemma int_nonneg (x : Q) : (0 <= x)%Q -> (0 <= int x)%Z.
Proof.
  unfold Qle, int; cbn; intros H.
  apply Z.quot_pos; lia.
Qed.

(** C3: every run of [run_pyre_command] calls [command.cleanup()] exactly
    once, whatever the guarded statements did: returned, raised an error of a
    classified kind, raised any other exception, or were interrupted. *)
Theorem cleanup_exactly_once
    (command : Command S) (configuration : Configuration) (noninteractive : bool)
    (w : World S) :
  exists events,
    trace (fst (run_pyre_command env command configuration noninteractive w))
      = trace w ++ events
    /\ count is_cleanup events = 1%nat.
Proof.
  rewrite run_pyre_command_unfolds; cbn [fst trace].
  eexists; split; [reflexivity|].
  rewrite !count_app.
  destruct (guarded_events_quiet command configuration noninteractive) as (_ & -> & _).
  destruct (interruption_events_quiet
              (guarded_outcome env command configuration noninteractive (ext w)))
    as (_ & -> & _).
  destruct (error_log_facts
              (snd (verdict env (guarded_outcome env command configuration
                                   noninteractive (ext w))))) as (_ & -> & _).
  now rewrite count_cleanup_map.
Qed.

(** C2 (amended): in every run the terminal actions are, in this order, the
    error log of the client-exception text (when it is not empty), the read
    of [command.result()], the call of [command.cleanup()] and at most one
    telemetry call; so cleanup always comes before telemetry. *)
Theorem terminal_actions_in_order
    (command : Command S) (configuration : Configuration) (noninteractive : bool)
    (w : World S) :
  exists events,
    trace (fst (run_pyre_command env command configuration noninteractive w))
      = trace w ++ events
    /\ terminal_order (EvResult (NAME command)) (EvCleanup (NAME command)) events.
Proof.
  rewrite run_pyre_command_unfolds; cbn [fst trace].
  eexists; split; [reflexivity|].
  eexists; eexists.
  rewrite !filter_app.
  destruct (guarded_events_quiet command configuration noninteractive) as (-> & _).
  destruct (interruption_events_quiet
              (guarded_outcome env command configuration noninteractive (ext w)))
    as (-> & _).
  destruct (error_log_facts
              (snd (verdict env (guarded_outcome env command configuration
                                   noninteractive (ext w))))) as (-> & _).
  rewrite filter_terminal_map; cbn.
  split; [reflexivity|].
  rewrite usage_calls_length; destruct (designates_logger command); lia.
Qed.


Lemma guarded_outcome_run command configuration noninteractive (s : S) :
  check_nested_local_configuration env configuration = Returned tt ->
  start_logging_to_directory env noninteractive
    (configuration_module.log_directory configuration) = Returned tt ->
  guarded_outcome env command configuration noninteractive s = snd (run command s).
Proof. unfold guarded_outcome; now intros -> ->. Qed.

(** C1 (amended): the exit code [run_pyre_command] returns and the
    client-exception text it logs and reports are those of the first rule of
    section 4.3 that applies to what the guarded statements did, which is
    what [command.run()] did when the two statements before it return.  The
    rule for any other fault applies to the instances of [Exception] only:
    an exception that is neither one of those nor a [KeyboardInterrupt]
    meets no rule, leaves the run as it is after the terminal actions, and
    the exit code recorded for it is the initial [FAILURE]. *)
Theorem run_pyre_command_exit_code
    (command : Command S) (configuration : Configuration) (noninteractive : bool)
    (w : World S) :
  let raised := guarded_outcome env command configuration noninteractive (ext w) in
  let final := run_pyre_command env command configuration noninteractive w in
  (check_nested_local_configuration env configuration = Returned tt ->
   start_logging_to_directory env noninteractive
     (configuration_module.log_directory configuration) = Returned tt ->
   raised = snd (run command (ext w)))
  /\
  exists events,
    trace (fst final) = trace w ++ events /\
    match classify env raised with
    | Some (code, text) =>
        snd final = Returned code
        /\ error_logs events = (if (0 <? String.length text)%nat then [text] else [])
        /\ Forall (fun call =>
                     statistics_module.exit_code (statistics_module.integers call) = code
                     /\ statistics_module.client_exception (statistics_module.normals call)
                        = text)
                  (statistics_calls events)
    | None =>
        (exists e, raised = Raised e
                   /\ isinstance e Exception = false
                   /\ isinstance e KeyboardInterrupt = false
                   /\ snd final = Raised e)
        /\ error_logs events = []
        /\ Forall (fun call =>
                     statistics_module.exit_code (statistics_module.integers call) = FAILURE
                     /\ statistics_module.client_exception (statistics_module.normals call)
                        = "")
                  (statistics_calls events)
    end.
Proof.
  cbv zeta.
  split; [intros Hnested Hlogging; now apply guarded_outcome_run|].
  rewrite run_pyre_command_unfolds; cbn [fst snd trace].
  set (raised := guarded_outcome env command configuration noninteractive (ext w)).
  eexists; split; [reflexivity|].
  rewrite !error_logs_app, !statistics_calls_app.
  destruct (guarded_events_quiet command configuration noninteractive)
    as (_ & _ & -> & ->).
  destruct (interruption_events_quiet raised) as (_ & _ & -> & ->).
  destruct (error_log_facts (snd (verdict env raised))) as (_ & _ & -> & ->).
  rewrite error_logs_map, statistics_calls_map; cbn.
  rewrite app_nil_r.
  assert (Hcalls : forall code text started now error_text,
             Forall (fun call =>
                       statistics_module.exit_code (statistics_module.integers call) = code
                       /\ statistics_module.client_exception
                            (statistics_module.normals call) = text)
                    (usage_calls env command started now code text error_text)).
  { intros; unfold usage_calls; repeat split_match; repeat constructor. }
  unfold run_result, verdict.
  destruct (classify env raised) as [[code text]|] eqn:Hclass; cbn.
  - repeat split; auto.
  - split; [|split; auto].
    destruct raised as [reported|[class message]]; [discriminate Hclass|].
    destruct class; cbn in Hclass; try discriminate Hclass;
      eexists; repeat split.
Qed.

(** C8 (amended): a run makes exactly one telemetry call when the
    configuration the command owns designates a logger and none otherwise;
    the call carries the final exit code, the elapsed milliseconds between
    the reading of the clock at the start and the one at the emission (not
    negative whenever the clock did not go back between the two), the root,
    the working directory, the client version, the command name, the
    client-exception text and the error text of the result. *)
Theorem telemetry_iff_logger
    (command : Command S) (passed : Configuration) (noninteractive : bool)
    (w : World S) :
  let final := run_pyre_command env command passed noninteractive w in
  let o := guarded_outcome env command passed noninteractive (ext w) in
  let s := guarded_state env command passed noninteractive (ext w) in
  let started := time env (ticks w) in
  let now := time env (Datatypes.S (ticks w)) in
  exists events,
    trace (fst final) = trace w ++ events
    /\ (List.length (statistics_calls events) = 1%nat <-> designates_logger command = true)
    /\ (statistics_calls events = [] <-> designates_logger command = false)
    /\ (forall code, snd final = Returned code -> code = fst (verdict env o))
    /\ error_logs events = (if (0 <? String.length (snd (verdict env o)))%nat
                            then [snd (verdict env o)] else [])
    /\ ext (fst final) = cleanup command s
    /\ forall call, In call (statistics_calls events) ->
         Some (statistics_module.configuration call) = configuration command
         /\ call = usage_call env command (statistics_module.configuration call)
                     started now (fst (verdict env o)) (snd (verdict env o))
                     (error_of (result command s))
         /\ ((started <= now)%Q ->
             (0 <= statistics_module.runtime (statistics_module.integers call))%Z).
Proof.
  cbv zeta.
  rewrite run_pyre_command_unfolds; cbn [fst snd trace ext].
  set (o := guarded_outcome env command passed noninteractive (ext w)).
  set (s := guarded_state env command passed noninteractive (ext w)).
  eexists; split; [reflexivity|].
  rewrite !error_logs_app, !statistics_calls_app.
  destruct (guarded_events_quiet command passed noninteractive)
    as (_ & _ & -> & ->).
  destruct (interruption_events_quiet o) as (_ & _ & -> & ->).
  destruct (error_log_facts (snd (verdict env o))) as (_ & _ & -> & ->).
  rewrite error_logs_map, statistics_calls_map; cbn.
  rewrite app_nil_r.
  split; [|split; [|split; [|split; [|split]]]].
  - rewrite usage_calls_length; destruct (designates_logger command);
      split; auto; discriminate.
  - split.
    + intros H; apply (f_equal (@List.length _)) in H; rewrite usage_calls_length in H.
      destruct (designates_logger command); auto; discriminate.
    + unfold usage_calls, designates_logger; repeat split_match; auto; discriminate.
  - unfold run_result, verdict.
    destruct o as [reported|e]; [intros code [= <-]; reflexivity|].
    destruct (classify env (Raised e)) as [[c t]|]; cbn;
      intros code; [intros [= <-]; reflexivity | discriminate].
  - reflexivity.
  - reflexivity.
  - intros call Hcall.
    unfold usage_calls in Hcall.
    destruct (configuration command) as [c|]; [|contradiction].
    destruct (truthy (configuration_module.logger c)); [|contradiction].
    destruct Hcall as [<-|[]]; cbn.
    repeat split.
    intros Hclock; apply int_nonneg.
    apply Qmult_le_0_compat; [|discriminate].
    now apply -> Qle_minus_iff.
Qed.

End Lifecycle.

(** ** The resolver *)

Ltac unfold_resolver :=
  unfold _create_configuration_with_retry, configuration_module_create_configuration,
    Cache_get_all_items, recently_used_configurations_prompt_user_for_local_root,
    LOG_warning, emit, outcome, bind, ret, raise, record.

Section Resolver.
Variable S : Type.
Variable env : Collaborators S.

Lemma has_sources_or_targets_true (c : Configuration) :
  configuration_module.source_directories c <> []
  \/ configuration_module.targets c <> [] ->
  has_sources_or_targets c = true.
Proof.
  unfold has_sources_or_targets.
  destruct (configuration_module.source_directories c),
           (configuration_module.targets c); cbn; intuition congruence.
Qed.

Lemma has_sources_or_targets_false (c : Configuration) :
  configuration_module.source_directories c = [] ->
  configuration_module.targets c = [] ->
  has_sources_or_targets c = false.
Proof. unfold has_sources_or_targets; now intros -> ->. Qed.

Lemma length_eqb_0 {A} (l : list A) : l <> [] -> (List.length l =? 0)%nat = false.
Proof. destruct l; [congruence | reflexivity]. Qed.

(** C5: when the candidate configuration has a source directory or a target,
    the resolver returns it after the single call that built it: the cache is
    not read and the operator is not asked. *)
Theorem resolver_fast_path
    (arguments : CommandArguments) (base_directory : Path) (w : World S)
    (c : Configuration)
    (Hcandidate : create_configuration env arguments base_directory = Returned c)
    (Hactionable : configuration_module.source_directories c <> []
                   \/ configuration_module.targets c <> []) :
  exists events,
    _create_configuration_with_retry env arguments base_directory w
      = (record w events, Returned c)
    /\ events = [EvCreateConfiguration arguments base_directory]
    /\ count is_cache_read events = 0%nat
    /\ count is_prompt events = 0%nat.
Proof.
  eexists; split; [|repeat split].
  unfold_resolver; cbn.
  now rewrite Hcandidate, (@has_sources_or_targets_true _ Hactionable).
Qed.

(** C6: when the candidate has neither source directories nor targets and
    the cache under its state directory is empty, the resolver raises
    [InvalidConfiguration] with the message below, without asking the
    operator. *)
Theorem resolver_empty_cache
    (arguments : CommandArguments) (base_directory : Path) (w : World S)
    (c : Configuration)
    (Hcandidate : create_configuration env arguments base_directory = Returned c)
    (Hsources : configuration_module.source_directories c = [])
    (Htargets : configuration_module.targets c = [])
    (Hcache : get_all_items env (configuration_module.dot_pyre_directory c) = []) :
  exists events,
    _create_configuration_with_retry env arguments base_directory w
      = (record w events,
         Raised (mkExc InvalidConfiguration
                   "No buck targets or source directories to analyze."))
    /\ events = [EvCreateConfiguration arguments base_directory;
                 EvCacheGetAllItems (configuration_module.dot_pyre_directory c)]
    /\ count is_prompt events = 0%nat.
Proof.
  eexists; split; [|repeat split].
  unfold_resolver; cbn.
  rewrite Hcandidate, (@has_sources_or_targets_false _ Hsources Htargets), Hcache; cbn.
  now tidy_trace.
Qed.

(** C7: when the candidate is not actionable, the cache is not empty and the
    prompt gives no selection, the resolver raises [InvalidConfiguration] with
    the message below, which differs from the message of the empty-cache
    failure. *)
Theorem resolver_no_selection
    (arguments : CommandArguments) (base_directory : Path) (w : World S)
    (c : Configuration)
    (Hcandidate : create_configuration env arguments base_directory = Returned c)
    (Hsources : configuration_module.source_directories c = [])
    (Htargets : configuration_module.targets c = [])
    (Hcache : get_all_items env (configuration_module.dot_pyre_directory c) <> [])
    (Hprompt : prompt_user_for_local_root env
                 (get_all_items env (configuration_module.dot_pyre_directory c)) = None) :
  exists e,
    snd (_create_configuration_with_retry env arguments base_directory w) = Raised e
    /\ exc_class e = InvalidConfiguration
    /\ str e = "Cannot determine which recent local root to rerun. "
    /\ forall (env0 : Collaborators S) arguments0 base0 w0 c0 e0,
         create_configuration env0 arguments0 base0 = Returned c0 ->
         configuration_module.source_directories c0 = [] ->
         configuration_module.targets c0 = [] ->
         get_all_items env0 (configuration_module.dot_pyre_directory c0) = [] ->
         snd (_create_configuration_with_retry env0 arguments0 base0 w0) = Raised e0 ->
         str e <> str e0.
Proof.
  exists (mkExc InvalidConfiguration
            "Cannot determine which recent local root to rerun. ").
  split; [|split; [reflexivity|split; [reflexivity|]]].
  - unfold_resolver; cbn.
    rewrite Hcandidate, (@has_sources_or_targets_false _ Hsources Htargets),
      (@length_eqb_0 _ _ Hcache), Hprompt; cbn.
    reflexivity.
  - intros env0 arguments0 base0 w0 c0 e0 H1 H2 H3 H4.
    unfold_resolver; cbn.
    rewrite H1, (@has_sources_or_targets_false _ H2 H3), H4; cbn.
    intros [= <-]; cbn; discriminate.
Qed.

(** C4: after the operator selected [root], the resolver builds the
    configuration once more, from arguments that differ from the given ones in
    the local root only; it reads the cache and asks once, returns the retried
    configuration when that has a source directory or a target, and otherwise
    raises the very exception of the empty-cache failure. *)
Theorem resolver_single_retry
    (arguments : CommandArguments) (base_directory : Path) (w : World S)
    (c c' : Configuration) (root : string)
    (Hcandidate : create_configuration env arguments base_directory = Returned c)
    (Hsources : configuration_module.source_directories c = [])
    (Htargets : configuration_module.targets c = [])
    (Hcache : get_all_items env (configuration_module.dot_pyre_directory c) <> [])
    (Hprompt : prompt_user_for_local_root env
                 (get_all_items env (configuration_module.dot_pyre_directory c))
               = Some root)
    (Hretry : create_configuration env
                (command_arguments.replace_local_configuration arguments root)
                base_directory = Returned c') :
  let retried := command_arguments.replace_local_configuration arguments root in
  let final := _create_configuration_with_retry env arguments base_directory w in
  command_arguments.local_configuration retried = Some root
  /\ same_but_local_configuration arguments retried
  /\ (exists events,
        fst final = record w events
        /\ filter is_create_configuration events
           = [EvCreateConfiguration arguments base_directory;
              EvCreateConfiguration retried base_directory]
        /\ count is_cache_read events = 1%nat
        /\ count is_prompt events = 1%nat)
  /\ (configuration_module.source_directories c' <> []
      \/ configuration_module.targets c' <> [] ->
      snd final = Returned c')
  /\ (configuration_module.source_directories c' = [] ->
      configuration_module.targets c' = [] ->
      exists e,
        snd final = Raised e
        /\ exc_class e = InvalidConfiguration
        /\ forall (env0 : Collaborators S) arguments0 base0 w0 c0,
             create_configuration env0 arguments0 base0 = Returned c0 ->
             configuration_module.source_directories c0 = [] ->
             configuration_module.targets c0 = [] ->
             get_all_items env0 (configuration_module.dot_pyre_directory c0) = [] ->
             snd (_create_configuration_with_retry env0 arguments0 base0 w0) = Raised e).
Proof.
  cbv zeta.
  split; [reflexivity|].
  split; [unfold same_but_local_configuration; cbn; repeat split|].
  assert (Hrun : forall o,
    (if has_sources_or_targets c' then Returned c'
     else Raised (mkExc InvalidConfiguration
                    "No buck targets or source directories to analyze.")) = o ->
    exists events,
      _create_configuration_with_retry env arguments base_directory w
        = (record w events, o)
      /\ filter is_create_configuration events
         = [EvCreateConfiguration arguments base_directory;
            EvCreateConfiguration
              (command_arguments.replace_local_configuration arguments root)
              base_directory]
      /\ count is_cache_read events = 1%nat
      /\ count is_prompt events = 1%nat).
  { intros o <-.
    unfold_resolver; cbn.
    rewrite Hcandidate, (@has_sources_or_targets_false _ Hsources Htargets),
      (@length_eqb_0 _ _ Hcache), Hprompt; cbn.
    rewrite Hretry.
    destruct (has_sources_or_targets c'); cbn; tidy_trace;
      eexists; (split; [reflexivity|]); repeat split. }
  destruct (Hrun _ eq_refl) as (events & Hfinal & Hcreate & Hread & Hask).
  rewrite Hfinal; cbn [fst snd].
  split; [now exists events|].
  split.
  - intros Hactionable. now rewrite (@has_sources_or_targets_true _ Hactionable).
  - intros Hs Ht. rewrite (@has_sources_or_targets_false _ Hs Ht).
    eexists; split; [reflexivity|]; split; [reflexivity|].
    intros env0 arguments0 base0 w0 c0 H1 H2 H3 H4.
    unfold_resolver; cbn.
    now rewrite H1, (@has_sources_or_targets_false _ H2 H3), H4.
Qed.

End Resolver.

(** ** Dispatch and the process boundary *)

Ltac unfold_dispatch :=
  unfold main, with_configured_logger, pyre_call, pyre, check, context_obj_arguments,
    _run_default_command, _run_check_command, _run_incremental_command,
    shutil_which, commands_construct, os_getcwd, LOG_warning, LOG_error,
    try_finally, try_except, emit, outcome, bind, ret, raise.

Section Dispatch.
Variable S : Type.
Variable env : Collaborators S.

Arguments _create_configuration_with_retry : simpl never.
Arguments run_pyre_command : simpl never.

(** The resolver only adds to the trace, and none of what it adds is the
    construction or the run of a command, or an error log. *)
Lemma resolver_effects (arguments : CommandArguments) (base_directory : Path)
    (w : World S) :
  exists events,
    fst (_create_configuration_with_retry env arguments base_directory w)
      = record w events
    /\ count is_construct events = 0%nat
    /\ count is_run events = 0%nat
    /\ error_logs events = [].
Proof.
  unfold_resolver.
  repeat split_match; tidy_trace; eexists; (split; [reflexivity|]); repeat split.
Qed.


(** C10: called without a subcommand and without the version flag, the group
    looks for a watchman binary; when there is one it resolves the
    configuration with [_create_configuration_with_retry] and runs the
    [Incremental] command with the fine-grained style, and otherwise it logs
    two warnings, resolves the configuration the same way and runs the
    [Check] command. *)
Theorem default_command_dispatch
    (arguments : CommandArguments) (w : World S)
    (Hversion : command_arguments.version arguments = false) :
  let found := truthy (which env "watchman") in
  let before :=
    EvWhich "watchman" ::
    (if found then []
     else [EvLog WARNING (No_watchman_binary_found
                          ++ "https://facebook.github.io/watchman/docs/install");
           EvLog WARNING "Defaulting to non-incremental check."]) in
  let call := fun configuration =>
    if found
    then Incremental arguments (getcwd env) configuration false FINE_GRAINED false false
    else Check arguments (getcwd env) configuration in
  pyre env None arguments w =
  match _create_configuration_with_retry env arguments "." (record w before) with
  | (w1, Raised e) => (w1, Raised e)
  | (w1, Returned configuration) =>
      match run_pyre_command env (construct env (call configuration)) configuration
              (command_arguments.noninteractive arguments)
              (record w1 [EvConstruct (call configuration)]) with
      | (w2, Returned code) => (w2, Returned (code, Some arguments))
      | (w2, Raised e) => (w2, Raised e)
      end
  end.
Proof.
  cbv zeta. unfold_dispatch. rewrite Hversion. unfold record. cbn.
  destruct (truthy (which env "watchman")); cbn; tidy_trace.
  - destruct (_create_configuration_with_retry _ _ _ _) as [w1 [c|e]]; cbn; [|reflexivity].
    destruct (run_pyre_command _ _ _ _ _) as [w2 [code|e]]; reflexivity.
  - destruct (_create_configuration_with_retry _ _ _ _) as [w1 [c|e]]; cbn; [|reflexivity].
    destruct (run_pyre_command _ _ _ _ _) as [w2 [code|e]]; reflexivity.
Qed.










End Dispatch.

(** ** Runs at concrete inputs *)

(** The scenario of section 8: [run()] raises a buck error with the message
    "query failed".  The whole trace of the run, call by call. *)
Example query_failed_trace :
  run_pyre_command
    (example_collaborators [] None (Raised query_failed) None)
    (example_command (Raised query_failed))
    local_configuration_a true example_world
  = ({| trace :=
          [EvCheckNested local_configuration_a;
           EvStartLogging true "/repo/.pyre/a";
           EvRun "check";
           EvLog ERROR "query failed";
           EvResult "check";
           EvCleanup "check";
           EvStatistics
             {| statistics_module.category := statistics_module.USAGE;
                statistics_module.configuration := local_configuration_a;
                statistics_module.integers :=
                  {| statistics_module.exit_code := BUCK_ERROR;
                     statistics_module.runtime := 1500 |};
                statistics_module.normals :=
                  {| statistics_module.root := "/repo/a";
                     statistics_module.cwd := "/repo";
                     statistics_module.client_version := "0.0.59";
                     statistics_module.command := "check";
                     statistics_module.client_exception := "query failed";
                     statistics_module.error_message := Some "1 error" |} |}];
        ticks := 2;
        ext := None |},
     Returned BUCK_ERROR).
Proof. reflexivity. Qed.

(** An interruption by the user ends as [SUCCESS], with nothing logged at
    error level. *)
Example interruption_is_success :
  let final :=
    run_pyre_command
      (example_collaborators [] None (Returned SUCCESS) None)
      (example_command (Raised (mkExc KeyboardInterrupt "")))
      local_configuration_a true example_world in
  snd final = Returned SUCCESS /\ error_logs (trace (fst final)) = [].
Proof. split; reflexivity. Qed.

(** An exception that derives from [BaseException] only meets no clause: it
    leaves the run, after the cleanup and a telemetry call that carries the
    initial [FAILURE]. *)
Example system_exit_goes_on :
  let final :=
    run_pyre_command
      (example_collaborators [] None (Returned SUCCESS) None)
      (example_command (Raised (mkExc SystemExit "2")))
      local_configuration_a true example_world in
  snd final = Raised (mkExc SystemExit "2")
  /\ count is_cleanup (trace (fst final)) = 1%nat
  /\ map (fun call => statistics_module.exit_code (statistics_module.integers call))
       (statistics_calls (trace (fst final))) = [FAILURE].
Proof. repeat split; reflexivity. Qed.

(** [check_nested_local_configuration] raising [InvalidConfiguration] inside
    the run is an ordinary error there: the run returns [FAILURE]. *)
Example nested_configuration_is_failure :
  snd (run_pyre_command
         {| create_configuration := fun _ _ => Returned local_configuration_a;
            check_nested_local_configuration := fun _ =>
              Raised (mkExc InvalidConfiguration "nested local configuration");
            start_logging_to_directory := fun _ _ => Returned tt;
            get_binary_version := fun _ => Returned None;
            get_all_items := fun _ => [];
            prompt_user_for_local_root := fun _ => None;
            construct := fun _ => example_command (Returned SUCCESS);
            click_parse := fun _ => Raised (mkExc ClickException "usage");
            which := fun _ => None;
            getcwd := "/repo";
            __version__ := "0.0.59";
            time := fun n => (Z.of_nat n # 1)%Q;
            format_exc := fun e => str e |}
         (example_command (Returned SUCCESS))
         local_configuration_a true example_world)
  = Returned FAILURE.
Proof. reflexivity. Qed.

(** [pyre] alone, watchman installed, nothing to analyse and an empty cache:
    [main] logs the error and gives [CONFIGURATION_ERROR]. *)
Example main_without_configuration :
  main (example_collaborators [] None (Returned SUCCESS) (Some "/usr/bin/watchman"))
    [] example_world
  = ({| trace :=
          [EvLoggerEnter false;
           EvWhich "watchman";
           EvCreateConfiguration example_arguments ".";
           EvCacheGetAllItems "/repo/.pyre";
           EvLog ERROR "No buck targets or source directories to analyze.";
           EvLoggerExit];
        ticks := 0;
        ext := None |},
     Returned CONFIGURATION_ERROR).
Proof. reflexivity. Qed.

(** ** The theorems at concrete inputs *)

(** C2 (counterexample): a command whose [run()] raises the buck error
    "query failed".  The terminal actions are not in the order error log,
    cleanup, result, telemetry: the result is read before the cleanup. *)
Lemma cleanup_then_result_fails :
  ~ terminal_order (EvCleanup "check") (EvResult "check")
      (trace (fst (run_pyre_command
                     (example_collaborators [] None (Raised query_failed) None)
                     (example_command (Raised query_failed))
                     local_configuration_a true example_world))).
Proof.
  intros (text & calls & Horder & _).
  vm_compute in Horder.
  destruct text; discriminate Horder.
Qed.

(** C1 (counterexample): [run()] raises [SystemExit], which is none of the
    named kinds and no interruption; the run does not return [FAILURE], it
    returns nothing and raises the exception. *)
Lemma other_fault_is_not_failure :
  snd (run (example_command (Raised (mkExc SystemExit "2"))) (ext example_world))
  = Raised (mkExc SystemExit "2")
  /\ isinstance (mkExc SystemExit "2") BuckException = false
  /\ isinstance (mkExc SystemExit "2") EnvironmentException = false
  /\ isinstance (mkExc SystemExit "2") ClientException = false
  /\ isinstance (mkExc SystemExit "2") KeyboardInterrupt = false
  /\ snd (run_pyre_command
            (example_collaborators [] None (Returned SUCCESS) None)
            (example_command (Raised (mkExc SystemExit "2")))
            local_configuration_a true example_world)
     = Raised (mkExc SystemExit "2")
  /\ snd (run_pyre_command
            (example_collaborators [] None (Returned SUCCESS) None)
            (example_command (Raised (mkExc SystemExit "2")))
            local_configuration_a true example_world)
     <> Returned FAILURE.
Proof. repeat split; vm_compute; discriminate. Qed.

(** C1 at the scenario of section 8: [run()] raises a buck error with the
    message "query failed"; the run returns [BUCK_ERROR] and logs the
    message. *)
Lemma run_pyre_command_exit_code_witness :
  snd (run_pyre_command
         (example_collaborators [] None (Raised query_failed) None)
         (example_command (Raised query_failed))
         local_configuration_a true example_world)
  = Returned BUCK_ERROR
  /\ error_logs
       (trace (fst (run_pyre_command
                      (example_collaborators [] None (Raised query_failed) None)
                      (example_command (Raised query_failed))
                      local_configuration_a true example_world)))
     = ["query failed"]
  /\ guarded_outcome (example_collaborators [] None (Raised query_failed) None)
       (example_command (Raised query_failed)) local_configuration_a true
       (ext example_world)
     = snd (run (example_command (Raised query_failed)) (ext example_world)).
Proof.
  destruct (@run_pyre_command_exit_code _
              (example_collaborators [] None (Raised query_failed) None)
              (example_command (Raised query_failed))
              local_configuration_a true example_world)
    as (Hreached & events & Htrace & Hcode & Hlogs & _).
  split; [exact Hcode|].
  split; [rewrite Htrace; exact Hlogs|].
  exact (Hreached eq_refl eq_refl).
Defined.

(** C8 (counterexample): the clock reads 10 s at the start and 9 s at the
    emission; the telemetry call carries a runtime of -1000 ms. *)
Lemma runtime_can_be_negative :
  designates_logger (example_command (Returned SUCCESS)) = true
  /\ map (fun call => statistics_module.runtime (statistics_module.integers call))
       (statistics_calls
          (trace (fst (run_pyre_command stepping_back_collaborators
                         (example_command (Returned SUCCESS))
                         local_configuration_a true example_world))))
     = [(-1000)%Z]
  /\ ~ Forall (fun call =>
                 (0 <= statistics_module.runtime (statistics_module.integers call))%Z)
         (statistics_calls
            (trace (fst (run_pyre_command stepping_back_collaborators
                           (example_command (Returned SUCCESS))
                           local_configuration_a true example_world)))).
Proof.
  split; [reflexivity|]. split; [reflexivity|].
  intros Hall. vm_compute in Hall.
  inversion Hall as [|call calls Hcall _]; subst.
  apply Hcall; reflexivity.
Qed.

(** C8 at the same run: one telemetry call, with a runtime of 1500 ms. *)
Lemma telemetry_iff_logger_witness :
  map (fun call => statistics_module.runtime (statistics_module.integers call))
    (statistics_calls
       (trace (fst (run_pyre_command
                      (example_collaborators [] None (Raised query_failed) None)
                      (example_command (Raised query_failed))
                      local_configuration_a true example_world))))
  = [1500%Z]
  /\ designates_logger (example_command (Raised query_failed)) = true.
Proof.
  destruct (@telemetry_iff_logger _
              (example_collaborators [] None (Raised query_failed) None)
              (example_command (Raised query_failed))
              local_configuration_a true example_world)
    as (events & Htrace & Hone & _).
  change (trace example_world ++ events) with events in Htrace.
  split; [reflexivity|].
  apply (proj1 Hone); rewrite <- Htrace; reflexivity.
Defined.

(** C5 at the arguments that name the local root [/repo/a]. *)
Lemma resolver_fast_path_witness :
  _create_configuration_with_retry
    (example_collaborators ["/repo/a"] None (Returned SUCCESS) None)
    (command_arguments.replace_local_configuration example_arguments "/repo/a")
    "." example_world
  = (record example_world
       [EvCreateConfiguration
          (command_arguments.replace_local_configuration example_arguments "/repo/a")
          "."],
     Returned local_configuration_a).
Proof.
  assert (Hsources : configuration_module.source_directories local_configuration_a <> [])
    by discriminate.
  destruct (@resolver_fast_path _
              (example_collaborators ["/repo/a"] None (Returned SUCCESS) None)
              (command_arguments.replace_local_configuration example_arguments "/repo/a")
              "." example_world local_configuration_a eq_refl
              (or_introl Hsources))
    as (events & Hrun & -> & _).
  exact Hrun.
Defined.

(** C6 at arguments without sources, targets or local root, the cache being
    empty. *)
Lemma resolver_empty_cache_witness :
  snd (_create_configuration_with_retry
         (example_collaborators [] None (Returned SUCCESS) None)
         example_arguments "." example_world)
  = Raised (mkExc InvalidConfiguration
              "No buck targets or source directories to analyze.").
Proof.
  destruct (@resolver_empty_cache _
              (example_collaborators [] None (Returned SUCCESS) None)
              example_arguments "." example_world empty_configuration
              eq_refl eq_refl eq_refl eq_refl)
    as (events & Hrun & _).
  rewrite Hrun; reflexivity.
Defined.

(** C7 at the same arguments, the cache holding [/repo/a] and the operator
    giving no answer. *)
Lemma resolver_no_selection_witness :
  snd (_create_configuration_with_retry
         (example_collaborators ["/repo/a"] None (Returned SUCCESS) None)
         example_arguments "." example_world)
  = Raised (mkExc InvalidConfiguration
              "Cannot determine which recent local root to rerun. ").
Proof.
  assert (Hcache : ["/repo/a"] <> []) by discriminate.
  destruct (@resolver_no_selection _
              (example_collaborators ["/repo/a"] None (Returned SUCCESS) None)
              example_arguments "." example_world empty_configuration
              eq_refl eq_refl eq_refl Hcache eq_refl)
    as ([class message] & Hrun & Hclass & Hmessage & _).
  cbn in Hclass, Hmessage; subst; exact Hrun.
Defined.

(** C4 at the scenario of section 8: the cache holds [/repo/a] only and the
    operator selects it; the resolver returns the configuration of that
    root. *)
Lemma resolver_single_retry_witness :
  snd (_create_configuration_with_retry
         (example_collaborators ["/repo/a"] (Some "/repo/a") (Returned SUCCESS) None)
         example_arguments "." example_world)
  = Returned local_configuration_a
  /\ configuration_module.local_root local_configuration_a = "/repo/a".
Proof.
  assert (Hcache : ["/repo/a"] <> []) by discriminate.
  destruct (@resolver_single_retry _
              (example_collaborators ["/repo/a"] (Some "/repo/a") (Returned SUCCESS) None)
              example_arguments "." example_world
              empty_configuration local_configuration_a "/repo/a"
              eq_refl eq_refl eq_refl Hcache eq_refl eq_refl)
    as (_ & _ & _ & Hreturn & _).
  split; [|reflexivity].
  apply Hreturn; left; discriminate.
Defined.



(** C10 at a machine without watchman: the default command is [Check]. *)
Lemma default_command_dispatch_witness :
  filter is_construct
    (trace (fst (pyre (example_collaborators ["/repo/a"] (Some "/repo/a")
                         (Returned SUCCESS) None)
                   None example_arguments example_world)))
  = [EvConstruct (Check example_arguments "/repo" local_configuration_a)].
Proof.
  rewrite (@default_command_dispatch _
             (example_collaborators ["/repo/a"] (Some "/repo/a") (Returned SUCCESS) None)
             example_arguments example_world eq_refl).
  reflexivity.
Defined.

(** ** What a computation never calls *)

Section NeverEmits.
Variable S : Type.
Variable env : Collaborators S.
Variable p : Event -> bool.

Lemma none_app (l1 l2 : list Event) : none p l1 -> none p l2 -> none p (l1 ++ l2).
Proof. unfold none; intros; now apply Forall_app. Qed.

Lemma none_count (l : list Event) : none p l -> count p l = 0%nat.
Proof.
  unfold none, count; induction 1 as [|e l He _ IH]; cbn; [reflexivity|].
  now rewrite He.
Qed.

Lemma never_emits_ret {A} (a : A) : never_emits p (ret (St:=World S) a).
Proof. intros w; exists []; cbn; split; [now rewrite app_nil_r | constructor]. Qed.

Lemma never_emits_raise {A} (e : PyExc) : never_emits p (raise (St:=World S) (A:=A) e).
Proof. intros w; exists []; cbn; split; [now rewrite app_nil_r | constructor]. Qed.

Lemma never_emits_outcome {A} (o : Outcome A) : never_emits p (outcome (S:=S) o).
Proof. intros w; exists []; cbn; split; [now rewrite app_nil_r | constructor]. Qed.

Lemma never_emits_emit (e : Event) : p e = false -> never_emits p (emit (S:=S) e).
Proof. intros He w; exists [e]; cbn; split; [reflexivity | now repeat constructor]. Qed.

Lemma never_emits_bind {A B} (m : M (World S) A) (k : A -> M (World S) B) :
  never_emits p m -> (forall a, never_emits p (k a)) -> never_emits p (bind m k).
Proof.
  intros Hm Hk w; unfold bind.
  destruct (Hm w) as (events & Htrace & Hnone).
  destruct (m w) as [w1 [a|e]]; cbn [fst] in *.
  - destruct (Hk a w1) as (events' & Htrace' & Hnone').
    exists (events ++ events'); split; [|now apply none_app].
    now rewrite Htrace', Htrace, app_assoc.
  - now exists events.
Qed.

Lemma never_emits_try_except {A} (body : M (World S) A)
    (handlers : list (Handler (World S) A)) :
  never_emits p body ->
  Forall (fun handler => forall e, never_emits p (snd handler e)) handlers ->
  never_emits p (try_except body handlers).
Proof.
  intros Hbody Hhandlers w; unfold try_except.
  destruct (Hbody w) as (events & Htrace & Hnone).
  destruct (body w) as [w1 [a|e]]; cbn [fst] in *; [now exists events|].
  assert (Hmatch : match first_match handlers e with
                   | Some handler => never_emits p handler
                   | None => True
                   end).
  { induction Hhandlers as [|[test clause] rest Hclause _ IH]; cbn; [exact I|].
    destruct (test e); [apply Hclause | exact IH]. }
  destruct (first_match handlers e) as [handler|]; [|now exists events].
  destruct (Hmatch w1) as (events' & Htrace' & Hnone').
  exists (events ++ events'); split; [|now apply none_app].
  now rewrite Htrace', Htrace, app_assoc.
Qed.

Lemma never_emits_try_finally {A} (body : M (World S) A) (final : M (World S) unit) :
  never_emits p body -> never_emits p final -> never_emits p (try_finally body final).
Proof.
  intros Hbody Hfinal w; unfold try_finally.
  destruct (Hbody w) as (events & Htrace & Hnone).
  destruct (body w) as [w1 o]; cbn [fst] in *.
  destruct (Hfinal w1) as (events' & Htrace' & Hnone').
  destruct (final w1) as [w2 [[]|e]]; cbn [fst] in *;
    (exists (events ++ events'); split; [|now apply none_app];
     now rewrite Htrace', Htrace, app_assoc).
Qed.

(** A run calls the guards, the command, the logs and the telemetry sink,
    and nothing else. *)
Lemma never_emits_run_pyre_command
    (command : Command S) (configuration : Configuration) (noninteractive : bool) :
  p (EvCheckNested configuration) = false ->
  p (EvStartLogging noninteractive (configuration_module.log_directory configuration))
  = false ->
  p (EvRun (NAME command)) = false ->
  p (EvResult (NAME command)) = false ->
  p (EvCleanup (NAME command)) = false ->
  (forall level message, p (EvLog level message) = false) ->
  (forall call, p (EvStatistics call) = false) ->
  never_emits p (run_pyre_command env command configuration noninteractive).
Proof.
  intros Hnested Hlogging Hrun Hresult Hcleanup Hlog Hcall w.
  rewrite run_pyre_command_unfolds; cbn [fst trace].
  eexists; split; [reflexivity|].
  repeat apply none_app.
  - unfold guarded_events; repeat split_match; now repeat constructor.
  - unfold interruption_events; repeat split_match; repeat constructor; apply Hlog.
  - unfold error_log; split_match; repeat constructor; apply Hlog.
  - now repeat constructor.
  - unfold none; apply Forall_map, Forall_forall; intros call _; apply Hcall.
Qed.

(** The resolver calls [create_configuration], the cache, the prompt and the
    warning log, and nothing else. *)
Lemma never_emits_resolver (arguments : CommandArguments) (base_directory : Path) :
  (forall a b, p (EvCreateConfiguration a b) = false) ->
  (forall d, p (EvCacheGetAllItems d) = false) ->
  (forall roots, p (EvPrompt roots) = false) ->
  (forall level message, p (EvLog level message) = false) ->
  never_emits p (_create_configuration_with_retry env arguments base_directory).
Proof.
  intros Hcreate Hcache Hprompt Hlog w.
  unfold_resolver.
  repeat split_match; tidy_trace; eexists; (split; [reflexivity|]);
    repeat constructor; auto.
Qed.

End NeverEmits.

(** ** Further properties of the resolver *)

Section ResolverMore.
Variable S : Type.
Variable env : Collaborators S.

Lemma has_sources_or_targets_spec (c : Configuration) :
  has_sources_or_targets c = true ->
  configuration_module.source_directories c <> []
  \/ configuration_module.targets c <> [].
Proof.
  unfold has_sources_or_targets.
  destruct (configuration_module.source_directories c),
           (configuration_module.targets c); cbn; intros H;
    try discriminate; (left; discriminate) || (right; discriminate).
Qed.

(** X1: whatever the collaborators answer, a configuration the resolver returns
    has a source directory or a target: a caller never gets one with
    nothing to analyse. *)
Theorem resolver_returns_actionable
    (arguments : CommandArguments) (base_directory : Path) (w : World S)
    (c : Configuration)
    (Hreturned : snd (_create_configuration_with_retry env arguments base_directory w)
                 = Returned c) :
  configuration_module.source_directories c <> []
  \/ configuration_module.targets c <> [].
Proof.
  apply has_sources_or_targets_spec.
  revert Hreturned. unfold_resolver.
  repeat split_match; intros [= <-]; assumption.
Qed.

(** X2: on every path the calls the resolver makes to build a configuration,
    to read the cache and to ask the operator are, in this order: the build
    from the arguments given; then possibly the read of the cache; then
    possibly the prompt; then possibly one build from the arguments with the
    selected root.  So it asks only after it read the cache, retries only
    after it asked, and never builds a third time.  It constructs and runs
    no command and leaves the clock and the state of the commands as they
    were. *)
Theorem resolver_effort_bounded
    (arguments : CommandArguments) (base_directory : Path) (w : World S) :
  exists events,
    fst (_create_configuration_with_retry env arguments base_directory w)
      = record w events
    /\ (let calls :=
          filter (fun e => is_create_configuration e || is_cache_read e || is_prompt e)
            events in
        let first := EvCreateConfiguration arguments base_directory in
        calls = [first]
        \/ (exists directory, calls = [first; EvCacheGetAllItems directory])
        \/ (exists directory roots,
              calls = [first; EvCacheGetAllItems directory; EvPrompt roots])
        \/ (exists directory roots root,
              calls = [first; EvCacheGetAllItems directory; EvPrompt roots;
                       EvCreateConfiguration
                         (command_arguments.replace_local_configuration arguments root)
                         base_directory]))
    /\ count is_construct events = 0%nat
    /\ count is_run events = 0%nat.
Proof.
  unfold_resolver.
  repeat split_match; tidy_trace; eexists; (split; [reflexivity|]); cbn;
    (split; [|split; reflexivity]);
    first [ left; reflexivity
          | right; left; eexists; reflexivity
          | right; right; left; eexists; eexists; reflexivity
          | right; right; right; eexists; eexists; eexists; reflexivity ].
Qed.

(** X3: an exception of [create_configuration], at the first call or at the
    retry, leaves the resolver as it is; after a failure of the first call
    the cache is not read and the operator is not asked. *)
Theorem resolver_passes_on_failures
    (arguments : CommandArguments) (base_directory : Path) (w : World S) (e : PyExc) :
  (create_configuration env arguments base_directory = Raised e ->
   _create_configuration_with_retry env arguments base_directory w
   = (record w [EvCreateConfiguration arguments base_directory], Raised e))
  /\
  (forall c root,
     create_configuration env arguments base_directory = Returned c ->
     has_sources_or_targets c = false ->
     get_all_items env (configuration_module.dot_pyre_directory c) <> [] ->
     prompt_user_for_local_root env
       (get_all_items env (configuration_module.dot_pyre_directory c)) = Some root ->
     create_configuration env
       (command_arguments.replace_local_configuration arguments root) base_directory
     = Raised e ->
     snd (_create_configuration_with_retry env arguments base_directory w) = Raised e).
Proof.
  split.
  - intros Hfirst. unfold_resolver; cbn. now rewrite Hfirst.
  - intros c root Hfirst Hempty Hcache Hprompt Hretry.
    unfold_resolver; cbn.
    rewrite Hfirst, Hempty, (@length_eqb_0 _ _ Hcache), Hprompt; cbn.
    now rewrite Hretry.
Qed.

(** X4: when [create_configuration] itself never raises, the resolver fails
    only with [InvalidConfiguration], and only with one of its two
    messages. *)
Theorem resolver_failure_kinds
    (arguments : CommandArguments) (base_directory : Path) (w : World S) (e : PyExc)
    (Hbuilds : forall a b, exists c, create_configuration env a b = Returned c)
    (Hraised : snd (_create_configuration_with_retry env arguments base_directory w)
               = Raised e) :
  exc_class e = InvalidConfiguration
  /\ (str e = "No buck targets or source directories to analyze."
      \/ str e = "Cannot determine which recent local root to rerun. ").
Proof.
  revert Hraised. unfold_resolver.
  destruct (Hbuilds arguments base_directory) as (c & ->); cbn.
  destruct (has_sources_or_targets c); cbn; [discriminate|].
  destruct (List.length _ =? 0)%nat; cbn; [intros [= <-]; cbn; auto|].
  destruct (prompt_user_for_local_root env _) as [root|]; cbn;
    [|intros [= <-]; cbn; auto].
  destruct (Hbuilds (command_arguments.replace_local_configuration arguments root)
              base_directory) as (c' & ->); cbn.
  destruct (has_sources_or_targets c'); cbn; [discriminate|intros [= <-]; cbn; auto].
Qed.

End ResolverMore.

(** ** Further properties of a run *)

Section LifecycleMore.
Variable S : Type.
Variable env : Collaborators S.

Lemma count_map_statistics (p : Event -> bool) (calls : list statistics_module.Call) :
  (forall call, p (EvStatistics call) = false) ->
  count p (map EvStatistics calls) = 0%nat.
Proof.
  intros Hp; induction calls as [|call calls IH]; cbn; [reflexivity|].
  unfold count in *; cbn; now rewrite Hp.
Qed.

(** X5: when [check_nested_local_configuration] or
    [start_logging_to_directory] raises, [command.run()] is never called;
    the result is still read once and the cleanup still called once, on the
    state the command had, and the exception is classified like one of
    [run()]. *)
Theorem guard_failure_skips_run
    (command : Command S) (configuration : Configuration) (noninteractive : bool)
    (w : World S) (e : PyExc)
    (Hguard :
       check_nested_local_configuration env configuration = Raised e
       \/ (check_nested_local_configuration env configuration = Returned tt
           /\ start_logging_to_directory env noninteractive
                (configuration_module.log_directory configuration) = Raised e)) :
  let final := run_pyre_command env command configuration noninteractive w in
  exists events,
    trace (fst final) = trace w ++ events
    /\ count is_run events = 0%nat
    /\ count is_result events = 1%nat
    /\ count is_cleanup events = 1%nat
    /\ ext (fst final) = cleanup command (ext w)
    /\ snd final = run_result env (Raised e).
Proof.
  cbv zeta. rewrite run_pyre_command_unfolds; cbn [fst snd trace ext].
  eexists; split; [reflexivity|].
  rewrite !count_app, !(count_map_statistics is_run), !(count_map_statistics is_result),
    !(count_map_statistics is_cleanup) by reflexivity.
  unfold guarded_events, guarded_state, guarded_outcome, interruption_events, error_log.
  destruct Hguard as [-> | [-> ->]]; cbn;
    repeat split; repeat split_match; reflexivity.
Qed.

(** X6: where each exit code of a run comes from.  [SUCCESS]: the command
    reported it, or an interruption by the user.  [BUCK_ERROR]: the command
    reported it, or a [BuckException].  [FAILURE]: the command reported it,
    or any [Exception] that is no [BuckException].  [CONFIGURATION_ERROR]:
    only when the command reported it. *)
Theorem exit_code_origins
    (command : Command S) (configuration : Configuration) (noninteractive : bool)
    (w : World S) :
  let o := guarded_outcome env command configuration noninteractive (ext w) in
  let returned := snd (run_pyre_command env command configuration noninteractive w) in
  (returned = Returned SUCCESS <->
     o = Returned SUCCESS
     \/ exists e, o = Raised e /\ isinstance e Exception = false
                  /\ isinstance e KeyboardInterrupt = true)
  /\ (returned = Returned BUCK_ERROR <->
        o = Returned BUCK_ERROR
        \/ exists e, o = Raised e /\ isinstance e BuckException = true)
  /\ (returned = Returned CONFIGURATION_ERROR <-> o = Returned CONFIGURATION_ERROR)
  /\ (returned = Returned FAILURE <->
        o = Returned FAILURE
        \/ exists e, o = Raised e /\ isinstance e Exception = true
                     /\ isinstance e BuckException = false).
Proof.
  cbv zeta. rewrite run_pyre_command_unfolds; cbn [snd].
  destruct (guarded_outcome env command configuration noninteractive (ext w))
    as [code | [class message]]; unfold run_result, classify.
  - repeat split; intros H;
      try (injection H as ->; now left);
      try (destruct H as [[= ->] | (e & [=] & _)]; reflexivity);
      try (injection H as ->; reflexivity).
  - destruct class; cbn;
      repeat split; intros H; try discriminate H;
      try (destruct H as [[=] | (e & [= <-] & H1 & H2)]; cbn in *; congruence);
      try (destruct H as [[=] | (e & [= <-] & H1)]; cbn in *; congruence);
      try (right; eexists; repeat split; reflexivity).
Qed.

End LifecycleMore.

(** ** Further properties of the entry points *)

Ltac unfold_calls :=
  unfold configuration_module_create_configuration, commands_construct, shutil_which,
    os_getcwd, context_obj_arguments, log_stdout_write, LOG_warning, LOG_error,
    LOG_debug.

(** Goes through a computation call by call; leaves what is not a call. *)
Ltac never_emits_step :=
  lazymatch goal with
  | |- never_emits _ (ret _) => apply never_emits_ret
  | |- never_emits _ (raise _) => apply never_emits_raise
  | |- never_emits _ (outcome _) => apply never_emits_outcome
  | |- never_emits _ (emit _) => apply never_emits_emit; reflexivity
  | |- never_emits _ (run_pyre_command _ _ _ _) =>
      apply never_emits_run_pyre_command; try reflexivity; intros; reflexivity
  | |- never_emits _ (_create_configuration_with_retry _ _ _) =>
      apply never_emits_resolver; intros; reflexivity
  | |- never_emits _ (bind _ _) => apply never_emits_bind; [|intros ?]
  | |- never_emits _ (try_finally _ _) => apply never_emits_try_finally
  | |- never_emits _ (try_except _ _) =>
      apply never_emits_try_except; [|repeat constructor; cbn [snd]; intros ?]
  | |- never_emits _ (if ?b then _ else _) => destruct b
  | |- never_emits _ (match ?x with _ => _ end) => destruct x
  | |- never_emits _ (let _ := _ in _) => cbv zeta
  end.

Ltac never_emits_steps := repeat never_emits_step.

(** Names what the resolver gives in the goal, by [Hresolve] on its outcome. *)
Ltac resolution_step Hresolve :=
  match goal with
  | |- context [_create_configuration_with_retry ?env ?a ?b ?w1] =>
      let events := fresh "resolved" in
      let Hworld := fresh "Hworld" in
      let Hquiet := fresh "Hquiet" in
      let Hout := fresh "Hout" in
      destruct (resolver_effects env a b w1) as (events & Hworld & Hquiet);
      pose proof (Hresolve w1) as Hout;
      destruct (_create_configuration_with_retry env a b w1) as [? ?];
      cbn [fst snd] in Hworld, Hout; subst; cbn
  end.

Section Boundary.
Variable S : Type.
Variable env : Collaborators S.

#[local] Arguments _create_configuration_with_retry : simpl never.
#[local] Arguments run_pyre_command : simpl never.
#[local] Arguments _show_pyre_version : simpl never.
#[local] Arguments pyre_call : simpl never.

Lemma pyre_call_no_bracket (argv : list string) :
  never_emits is_logger_bracket
    (try_except (pyre_call env argv)
       [ (fun error => isinstance error EnvironmentException,
          fun error => LOG_error (S:=S) (str error) ;; ret FAILURE);
         (fun error => isinstance error InvalidConfiguration,
          fun error => LOG_error (str error) ;; ret CONFIGURATION_ERROR);
         (fun error => isinstance error ClickException,
          fun error => emit (EvClickShow error) ;; ret FAILURE) ])%py.
Proof.
  unfold pyre_call, pyre, check, _show_pyre_version, _run_default_command,
    _run_check_command, _run_incremental_command.
  unfold_calls.
  never_emits_steps.
Qed.

Lemma existsb_eqb_In (name : string) (argv : list string) :
  existsb (String.eqb name) argv = true <-> In name argv.
Proof.
  rewrite existsb_exists; split.
  - intros (x & Hin & Heq). apply String.eqb_eq in Heq. now subst.
  - intros Hin. exists name; split; [assumption | apply String.eqb_refl].
Qed.

(** X10: on every path, exceptions that leave [main] included, [main] enters the
    configured logger first and leaves it last, once each; the logger is
    non-interactive exactly when [-n] or [--noninteractive] is among the
    arguments. *)
Theorem main_brackets_logger (argv : list string) (w : World S) :
  exists (noninteractive : bool) (events : list Event),
    trace (fst (main env argv w))
    = trace w ++ [EvLoggerEnter noninteractive] ++ events ++ [EvLoggerExit]
    /\ none is_logger_bracket events
    /\ (noninteractive = true <-> In "-n" argv \/ In "--noninteractive" argv).
Proof.
  unfold main. set (ni := (_ || _)%bool).
  exists ni.
  assert (Hni : ni = true <-> In "-n" argv \/ In "--noninteractive" argv).
  { unfold ni. now rewrite orb_true_iff, !existsb_eqb_In. }
  clearbody ni.
  unfold with_configured_logger.
  pose proof (pyre_call_no_bracket argv) as Hinner.
  set (inner := try_except _ _) in *. clearbody inner.
  unfold try_finally, bind, emit; cbn.
  match goal with
  | |- context [inner ?w1] =>
      destruct (Hinner w1) as (events & Htrace & Hnone);
      destruct (inner w1) as [w2 o]
  end.
  cbn in Htrace |- *.
  exists events. rewrite Htrace, <- !app_assoc. repeat split; auto; apply Hni.
Qed.

(** X7: [_show_pyre_version] swallows every [Exception] of the configuration or
    of the binary: it then writes the client version alone.  It writes the
    binary version first when that is a non-empty string, and only an
    exception that is no [Exception] leaves it, nothing written. *)
Theorem show_version_swallows_errors (arguments : CommandArguments) (w : World S) :
  let binary :=
    match create_configuration env arguments "." with
    | Returned c => get_binary_version env c
    | Raised e => Raised e
    end in
  let client := ("Client version: " ++ __version__ env ++ newline)%string in
  exists events,
    fst (_show_pyre_version env arguments w) = record w events
    /\ match binary with
       | Returned version =>
           snd (_show_pyre_version env arguments w) = Returned tt
           /\ stdout_writes events
              = match version with
                | Some v => if truthy version
                            then [("Binary version: " ++ v ++ newline)%string; client]
                            else [client]
                | None => [client]
                end
       | Raised e =>
           if isinstance e Exception
           then snd (_show_pyre_version env arguments w) = Returned tt
                /\ stdout_writes events = [client]
           else snd (_show_pyre_version env arguments w) = Raised e
                /\ stdout_writes events = []
       end.
Proof.
  cbv zeta. unfold _show_pyre_version. unfold_calls.
  unfold try_except, bind, emit, outcome, ret, record; cbn.
  destruct (create_configuration env arguments ".") as [c|e]; cbn.
  - destruct (get_binary_version env c) as [[v|]|e]; cbn.
    + destruct (negb _); cbn; tidy_trace; eexists; (split; [reflexivity|]); now split.
    + tidy_trace; eexists; (split; [reflexivity|]); now split.
    + destruct e as [[] message]; cbn; tidy_trace;
        eexists; (split; [reflexivity|]); now split.
  - destruct e as [[] message]; cbn; tidy_trace;
      eexists; (split; [reflexivity|]); now split.
Qed.

(** X8: with the version flag the group builds the configuration once, without
    the fallback (no cache read, no prompt), constructs and runs no command,
    and when it returns it returns [SUCCESS] and leaves no arguments in the
    click context, whatever subcommand was named. *)
Theorem version_flag_runs_nothing
    (invoked : option Subcommand) (arguments : CommandArguments) (w : World S)
    (Hversion : command_arguments.version arguments = true) :
  exists events,
    fst (pyre env invoked arguments w) = record w events
    /\ count is_create_configuration events = 1%nat
    /\ count is_cache_read events = 0%nat
    /\ count is_prompt events = 0%nat
    /\ count is_construct events = 0%nat
    /\ count is_run events = 0%nat
    /\ forall value, snd (pyre env invoked arguments w) = Returned value ->
                     value = (SUCCESS, None).
Proof.
  unfold pyre. rewrite Hversion.
  unfold _show_pyre_version. unfold_calls.
  unfold try_except, bind, emit, outcome, ret, record; cbn.
  repeat split_match; tidy_trace; eexists; (split; [reflexivity|]);
    repeat split; intros value [= <-]; reflexivity.
Qed.

Lemma show_version_effects (arguments : CommandArguments) (w : World S) :
  exists events,
    fst (_show_pyre_version env arguments w) = record w events
    /\ count is_run events = 0%nat
    /\ count is_construct events = 0%nat
    /\ error_logs events = [].
Proof.
  unfold _show_pyre_version. unfold_calls.
  unfold try_except, bind, emit, outcome, ret, record; cbn.
  repeat split_match; tidy_trace; eexists; (split; [reflexivity|]); repeat split.
Qed.

(** X9: [pyre --version check]: the versions are shown, then the subcommand finds
    no arguments in the click context and raises a [TypeError], which no
    clause of [main] catches: [main] raises it, with no command run and
    nothing logged at error level. *)
Theorem version_with_subcommand_escapes
    (argv : list string) (w : World S) (invocation : Invocation)
    (Hparse : click_parse env argv = Returned invocation)
    (Hversion : command_arguments.version (parsed_arguments invocation) = true)
    (Hsubcommand : invoked_subcommand invocation = Some sub_check)
    (Hshown : forall w1,
        snd (_show_pyre_version env (parsed_arguments invocation) w1) = Returned tt) :
  exists e events,
    trace (fst (main env argv w)) = trace w ++ events
    /\ snd (main env argv w) = Raised e
    /\ exc_class e = TypeError
    /\ count is_run events = 0%nat
    /\ error_logs events = [].
Proof.
  destruct invocation as [arguments invoked]; cbn in *; subst invoked.
  unfold main. set (ni := (_ || _)%bool). clearbody ni.
  unfold with_configured_logger, pyre_call, pyre, check, context_obj_arguments.
  unfold try_finally, try_except, bind, emit, outcome, ret, raise.
  rewrite Hparse; cbn. rewrite Hversion; cbn.
  match goal with
  | |- context [_show_pyre_version env arguments ?w1] =>
      pose proof (Hshown w1) as Hout;
      destruct (show_version_effects arguments w1) as (shown & Hworld & Hrun & _ & Hlogs);
      destruct (_show_pyre_version env arguments w1) as [w2 o]
  end.
  cbn in Hworld, Hout. subst w2 o; cbn. rewrite <- !app_assoc.
  eexists; eexists; split; [reflexivity|]; split; [reflexivity|]; split; [reflexivity|].
  rewrite !count_app, !error_logs_app, Hrun, Hlogs. split; reflexivity.
Qed.

(** X12: an [EnvironmentException] raised while the configuration is resolved
    (outside [run_pyre_command]) makes [main] log its text once and return
    [FAILURE], no command being constructed or run. *)
Theorem environment_error_in_resolution
    (argv : list string) (w : World S) (invocation : Invocation) (e : PyExc)
    (Hparse : click_parse env argv = Returned invocation)
    (Hversion : command_arguments.version (parsed_arguments invocation) = false)
    (Hresolve : forall w1,
        snd (_create_configuration_with_retry env (parsed_arguments invocation) "." w1)
        = Raised e)
    (Hkind : isinstance e EnvironmentException = true) :
  exists events,
    trace (fst (main env argv w)) = trace w ++ events
    /\ snd (main env argv w) = Returned FAILURE
    /\ error_logs events = [str e]
    /\ count is_construct events = 0%nat
    /\ count is_run events = 0%nat.
Proof.
  destruct invocation as [arguments invoked]; cbn in *.
  unfold isinstance, issubclass in Hkind; cbn in Hkind.
  unfold main. set (ni := (_ || _)%bool). clearbody ni.
  unfold_dispatch. rewrite Hparse. cbn. rewrite Hversion. cbn.
  destruct invoked as [[]|]; cbn;
    [|destruct (truthy (which env "watchman")); cbn];
    resolution_step Hresolve; rewrite Hkind; cbn; rewrite <- !app_assoc;
    (eexists; (split; [reflexivity|]); (split; [reflexivity|]));
    destruct Hquiet as (Hq1 & Hq2 & Hq3);
    rewrite !error_logs_app, !count_app, Hq1, Hq2, Hq3; repeat split.
Qed.

(** X13: an exception of the call of the group that is no
    [EnvironmentException], [InvalidConfiguration] or [ClickException]
    leaves [main] unchanged, after the logger is left: [main] gives no exit
    code for it. *)
Theorem other_errors_escape_main
    (argv : list string) (w : World S) (e : PyExc)
    (Hraised : forall w1, snd (pyre_call env argv w1) = Raised e)
    (Henvironment : isinstance e EnvironmentException = false)
    (Hconfiguration : isinstance e InvalidConfiguration = false)
    (Hclick : isinstance e ClickException = false) :
  exists noninteractive,
    let entered := record w [EvLoggerEnter noninteractive] in
    main env argv w
    = (record (fst (pyre_call env argv entered)) [EvLoggerExit], Raised e).
Proof.
  unfold main. set (ni := (_ || _)%bool). clearbody ni. exists ni.
  cbv zeta.
  unfold with_configured_logger, try_finally, try_except, bind, emit, record; cbn.
  match goal with
  | |- context [pyre_call env argv ?w1] =>
      pose proof (Hraised w1) as Hout;
      destruct (pyre_call env argv w1) as [w2 o]
  end.
  cbn in Hout; subst o; cbn.
  unfold isinstance, issubclass in Henvironment, Hconfiguration, Hclick.
  cbn in Henvironment, Hconfiguration, Hclick.
  now rewrite Henvironment, Hconfiguration, Hclick.
Qed.

End Boundary.

(** ** The other subcommands *)

Section SubcommandsMore.
Variable S : Type.
Variable env : Collaborators S.
Variable construct_server : ServerConstruction -> Command S.
Variable IncrementalStyle_str : IncrementalStyle -> string.

#[local] Arguments _create_configuration_with_retry : simpl never.
#[local] Arguments run_pyre_command : simpl never.

(** The test of the option [--incremental-style] gives back the style whose
    name it is given, the two names being different. *)
Lemma style_of_name (style : IncrementalStyle) :
  IncrementalStyle_str SHALLOW <> IncrementalStyle_str FINE_GRAINED ->
  (if String.eqb (IncrementalStyle_str style) (IncrementalStyle_str SHALLOW)
   then SHALLOW else FINE_GRAINED) = style.
Proof.
  intros Hdistinct; destruct style.
  - now rewrite String.eqb_refl.
  - destruct (String.eqb_spec (IncrementalStyle_str FINE_GRAINED)
                (IncrementalStyle_str SHALLOW)) as [Heq|_]; [|reflexivity].
    now symmetry in Heq.
Qed.

(** X14: [incremental] decodes the name of each incremental style back to that
    style when the two names differ, and takes every other text for the
    fine-grained style. *)
Theorem incremental_style_decoding
    (obj : option CommandArguments) (nonblocking no_start no_watchman : bool) :
  (IncrementalStyle_str SHALLOW <> IncrementalStyle_str FINE_GRAINED ->
   forall style,
     incremental env IncrementalStyle_str obj nonblocking (IncrementalStyle_str style)
       no_start no_watchman
     = (arguments <- context_obj_arguments obj ;;
        _run_incremental_command env arguments nonblocking style
          no_start no_watchman)%py)
  /\
  (forall name,
     name <> IncrementalStyle_str SHALLOW ->
     incremental env IncrementalStyle_str obj nonblocking name no_start no_watchman
     = (arguments <- context_obj_arguments obj ;;
        _run_incremental_command env arguments nonblocking FINE_GRAINED
          no_start no_watchman)%py).
Proof.
  split.
  - intros Hdistinct style; unfold incremental.
    now rewrite (style_of_name style Hdistinct).
  - intros name Hname; unfold incremental.
    now destruct (String.eqb_spec name (IncrementalStyle_str SHALLOW)).
Qed.

(** X15: as the docstring of [incremental] says, when a watchman binary is found
    [pyre] alone does what [pyre incremental] does with its default options
    (the two style names being different). *)
Theorem default_is_incremental
    (arguments : CommandArguments) (w : World S)
    (Hdistinct : IncrementalStyle_str SHALLOW <> IncrementalStyle_str FINE_GRAINED)
    (Hwatchman : truthy (which env "watchman") = true) :
  _run_default_command env arguments w
  = incremental env IncrementalStyle_str (Some arguments) false
      (IncrementalStyle_str FINE_GRAINED) false false
      (record w [EvWhich "watchman"]).
Proof.
  unfold incremental. rewrite (style_of_name FINE_GRAINED Hdistinct).
  unfold _run_default_command, shutil_which, bind, emit, ret, context_obj_arguments,
    record; cbn.
  now rewrite Hwatchman.
Qed.

(** X16: [kill], [persistent], [rage], [servers] and [stop] never read the cache
    of recent roots and never ask the operator. *)
Theorem server_subcommands_skip_fallback
    (obj : option CommandArguments) (with_fire no_watchman : bool)
    (output_file : option string) (subcommand : string) :
  let asks := fun e => is_cache_read e || is_prompt e in
  never_emits asks (kill env construct_server obj with_fire)
  /\ never_emits asks (persistent env construct_server obj no_watchman)
  /\ never_emits asks (rage env construct_server obj output_file)
  /\ never_emits asks (servers env construct_server obj subcommand)
  /\ never_emits asks (stop env construct_server obj).
Proof.
  cbv zeta; unfold kill, persistent, rage, servers, stop; unfold_calls.
  repeat split; never_emits_steps.
Qed.

(** X17: with a configuration that has neither source directories nor targets
    and an empty cache, [check] fails with [InvalidConfiguration] while
    [stop] runs its command on that configuration and gives what the run
    gives. *)
Theorem stop_needs_nothing_to_analyse
    (arguments : CommandArguments) (w : World S) (c : Configuration)
    (Hcandidate : create_configuration env arguments "." = Returned c)
    (Hsources : configuration_module.source_directories c = [])
    (Htargets : configuration_module.targets c = [])
    (Hcache : get_all_items env (configuration_module.dot_pyre_directory c) = []) :
  let command := construct_server (Stop arguments (getcwd env) c) in
  snd (check env (Some arguments) w)
  = Raised (mkExc InvalidConfiguration
              "No buck targets or source directories to analyze.")
  /\ snd (stop env construct_server (Some arguments) w)
     = run_result env
         (guarded_outcome env command c
            (command_arguments.noninteractive arguments) (ext w)).
Proof.
  cbv zeta; split.
  - unfold check, _run_check_command, context_obj_arguments, bind, ret; cbn.
    unfold_resolver; cbn.
    now rewrite Hcandidate, (@has_sources_or_targets_false _ Hsources Htargets), Hcache.
  - unfold stop; unfold_calls; unfold bind, emit, outcome, ret; cbn.
    rewrite Hcandidate; cbn.
    now rewrite run_pyre_command_unfolds.
Qed.

(** X18: [persistent] never starts logging in interactive mode, whatever the
    arguments say; when its guards pass it starts logging in
    non-interactive mode. *)
Theorem persistent_is_noninteractive
    (obj : option CommandArguments) (no_watchman : bool) :
  never_emits is_interactive_logging (persistent env construct_server obj no_watchman)
  /\ forall arguments c w,
       obj = Some arguments ->
       create_configuration env arguments "." = Returned c ->
       check_nested_local_configuration env c = Returned tt ->
       In (EvStartLogging true (configuration_module.log_directory c))
          (trace (fst (persistent env construct_server obj no_watchman w))).
Proof.
  split.
  - unfold persistent; unfold_calls. never_emits_steps.
  - intros arguments c w -> Hcandidate Hnested.
    unfold persistent; unfold_calls; unfold bind, emit, outcome, ret; cbn.
    rewrite Hcandidate; cbn.
    rewrite run_pyre_command_unfolds; cbn [fst trace].
    unfold guarded_events; rewrite Hnested.
    rewrite !in_app_iff; right; left; cbn; auto.
Qed.

End SubcommandsMore.

Section ProfileMore.
Variable ProfileOutput : Type.
Variable items : list ProfileOutput.
Variable name_of : ProfileOutput -> string.

(** X19: [get_profile_output] returns only a member whose name is the text
    given, fails with the message of its [ValueError] when no member has
    that name, and gives back each member from its name when the names are
    pairwise different. *)
Theorem get_profile_output_decodes (profile_output : string) :
  (forall item,
     get_profile_output items name_of profile_output = inl item ->
     In item items /\ name_of item = profile_output)
  /\ ((forall item, In item items -> name_of item <> profile_output) ->
      get_profile_output items name_of profile_output
      = inr ("Unrecognized value for --profile-output: " ++ profile_output)%string)
  /\ (NoDup (map name_of items) ->
      forall item, In item items ->
        get_profile_output items name_of (name_of item) = inl item).
Proof.
  unfold get_profile_output.
  split; [|split].
  - induction items as [|first rest IH]; cbn; [discriminate|].
    intros item.
    destruct (String.eqb_spec (name_of first) profile_output) as [Heq|Hne].
    + intros [= <-]; auto.
    + intros H; destruct (IH item H); auto.
  - induction items as [|first rest IH]; cbn; [reflexivity|].
    intros Hnone.
    destruct (String.eqb_spec (name_of first) profile_output) as [Heq|Hne].
    + exfalso; apply (Hnone first); auto.
    + apply IH; intros item Hin; apply Hnone; auto.
  - induction items as [|first rest IH]; cbn; [contradiction|].
    intros Hnodup item [<-|Hin].
    + now rewrite String.eqb_refl.
    + inversion Hnodup as [|? ? Hfresh Hrest]; subst.
      destruct (String.eqb_spec (name_of first) (name_of item)) as [Heq|Hne].
      * exfalso; apply Hfresh; rewrite Heq; now apply in_map.
      * now apply IH.
Qed.

End ProfileMore.

(** ** The further properties at concrete inputs *)

(** X1 where the operator selects [/repo/a]: the configuration returned has
    a source directory. *)
Lemma resolver_returns_actionable_witness :
  configuration_module.source_directories local_configuration_a <> []
  \/ configuration_module.targets local_configuration_a <> [].
Proof.
  apply (@resolver_returns_actionable _
           (example_collaborators ["/repo/a"] (Some "/repo/a") (Returned SUCCESS) None)
           example_arguments "." example_world local_configuration_a).
  reflexivity.
Defined.

(** X3 where [create_configuration] finds no buck: the resolver raises the
    same exception after that one call. *)
Lemma resolver_passes_on_failures_witness :
  _create_configuration_with_retry
    (example_collaborators_with
       (fun _ _ => Raised (mkExc EnvironmentException "buck not found"))
       (fun _ => Returned tt) (fun _ => Raised (mkExc ClickException "usage"))
       (Returned SUCCESS))
    example_arguments "." example_world
  = (record example_world [EvCreateConfiguration example_arguments "."],
     Raised (mkExc EnvironmentException "buck not found")).
Proof.
  apply (proj1 (@resolver_passes_on_failures _
                  (example_collaborators_with
                     (fun _ _ => Raised (mkExc EnvironmentException "buck not found"))
                     (fun _ => Returned tt)
                     (fun _ => Raised (mkExc ClickException "usage"))
                     (Returned SUCCESS))
                  example_arguments "." example_world
                  (mkExc EnvironmentException "buck not found"))).
  reflexivity.
Defined.

(** X4 where every configuration is empty and so is the cache. *)
Lemma resolver_failure_kinds_witness :
  exc_class (mkExc InvalidConfiguration
               "No buck targets or source directories to analyze.")
  = InvalidConfiguration
  /\ (str (mkExc InvalidConfiguration
             "No buck targets or source directories to analyze.")
      = "No buck targets or source directories to analyze."
      \/ str (mkExc InvalidConfiguration
                "No buck targets or source directories to analyze.")
         = "Cannot determine which recent local root to rerun. ").
Proof.
  apply (@resolver_failure_kinds _
           (example_collaborators_with
              (fun _ _ => Returned empty_configuration)
              (fun _ => Returned tt)
              (fun _ => Raised (mkExc ClickException "usage"))
              (Returned SUCCESS))
           example_arguments "." example_world).
  - intros a b; exists empty_configuration; reflexivity.
  - reflexivity.
Defined.

(** X5 where the nested-configuration check fails: the command is not run
    and the run returns [FAILURE]. *)
Lemma guard_failure_skips_run_witness :
  count is_run
    (trace (fst (run_pyre_command
                   (example_collaborators_with
                      (fun _ _ => Returned local_configuration_a)
                      (fun _ => Raised (mkExc InvalidConfiguration "nested"))
                      (fun _ => Raised (mkExc ClickException "usage"))
                      (Returned SUCCESS))
                   (example_command (Returned SUCCESS))
                   local_configuration_a true example_world)))
  = 0%nat
  /\ snd (run_pyre_command
            (example_collaborators_with
               (fun _ _ => Returned local_configuration_a)
               (fun _ => Raised (mkExc InvalidConfiguration "nested"))
               (fun _ => Raised (mkExc ClickException "usage"))
               (Returned SUCCESS))
            (example_command (Returned SUCCESS))
            local_configuration_a true example_world)
     = Returned FAILURE.
Proof.
  destruct (@guard_failure_skips_run _
              (example_collaborators_with
                 (fun _ _ => Returned local_configuration_a)
                 (fun _ => Raised (mkExc InvalidConfiguration "nested"))
                 (fun _ => Raised (mkExc ClickException "usage"))
                 (Returned SUCCESS))
              (example_command (Returned SUCCESS))
              local_configuration_a true example_world
              (mkExc InvalidConfiguration "nested") (or_introl eq_refl))
    as (events & Htrace & Hrun & _ & _ & _ & Hcode).
  split; [rewrite Htrace; exact Hrun | exact Hcode].
Defined.

(** X8 at [pyre --version check]: the group constructs no command and
    reads no cache. *)
Lemma version_flag_runs_nothing_witness :
  exists events,
    fst (pyre
           (example_collaborators_with
              (fun _ _ => Returned local_configuration_a) (fun _ => Returned tt)
              (fun _ => Returned version_and_check) (Returned SUCCESS))
           (Some sub_check) (parsed_arguments version_and_check) example_world)
    = record example_world events
    /\ count is_construct events = 0%nat
    /\ count is_cache_read events = 0%nat.
Proof.
  destruct (@version_flag_runs_nothing _
              (example_collaborators_with
                 (fun _ _ => Returned local_configuration_a) (fun _ => Returned tt)
                 (fun _ => Returned version_and_check) (Returned SUCCESS))
              (Some sub_check) (parsed_arguments version_and_check) example_world
              eq_refl)
    as (events & Hworld & _ & Hcache & _ & Hconstruct & _).
  exists events; repeat split; assumption.
Defined.

(** X9 at [pyre --version check]: [main] raises a [TypeError]. *)
Lemma version_with_subcommand_escapes_witness :
  exists e,
    snd (main
           (example_collaborators_with
              (fun _ _ => Returned local_configuration_a) (fun _ => Returned tt)
              (fun _ => Returned version_and_check) (Returned SUCCESS))
           ["--version"; "check"] example_world)
    = Raised e
    /\ exc_class e = TypeError.
Proof.
  destruct (@version_with_subcommand_escapes _
              (example_collaborators_with
                 (fun _ _ => Returned local_configuration_a) (fun _ => Returned tt)
                 (fun _ => Returned version_and_check) (Returned SUCCESS))
              ["--version"; "check"] example_world version_and_check
              eq_refl eq_refl eq_refl (fun w1 => eq_refl))
    as (e & events & _ & Hraised & Hclass & _).
  exists e; split; assumption.
Defined.

(** X12 at [pyre check] where [create_configuration] finds no buck. *)
Lemma environment_error_in_resolution_witness :
  snd (main
         (example_collaborators_with
            (fun _ _ => Raised (mkExc EnvironmentException "buck not found"))
            (fun _ => Returned tt)
            (fun _ => Returned {| parsed_arguments := example_arguments;
                                  invoked_subcommand := Some sub_check |})
            (Returned SUCCESS))
         ["check"] example_world)
  = Returned FAILURE.
Proof.
  destruct (@environment_error_in_resolution _
              (example_collaborators_with
                 (fun _ _ => Raised (mkExc EnvironmentException "buck not found"))
                 (fun _ => Returned tt)
                 (fun _ => Returned {| parsed_arguments := example_arguments;
                                       invoked_subcommand := Some sub_check |})
                 (Returned SUCCESS))
              ["check"] example_world
              {| parsed_arguments := example_arguments;
                 invoked_subcommand := Some sub_check |}
              (mkExc EnvironmentException "buck not found")
              eq_refl eq_refl (fun w1 => eq_refl) eq_refl)
    as (events & _ & Hcode & _).
  exact Hcode.
Defined.

(** X13 at [pyre check] where [create_configuration] raises a
    [RuntimeError]: [main] raises it. *)
Lemma other_errors_escape_main_witness :
  snd (main
         (example_collaborators_with
            (fun _ _ => Raised (mkExc RuntimeError "unreadable configuration"))
            (fun _ => Returned tt)
            (fun _ => Returned {| parsed_arguments := example_arguments;
                                  invoked_subcommand := Some sub_check |})
            (Returned SUCCESS))
         ["check"] example_world)
  = Raised (mkExc RuntimeError "unreadable configuration").
Proof.
  destruct (@other_errors_escape_main _
              (example_collaborators_with
                 (fun _ _ => Raised (mkExc RuntimeError "unreadable configuration"))
                 (fun _ => Returned tt)
                 (fun _ => Returned {| parsed_arguments := example_arguments;
                                       invoked_subcommand := Some sub_check |})
                 (Returned SUCCESS))
              ["check"] example_world
              (mkExc RuntimeError "unreadable configuration")
              (fun w1 => eq_refl) eq_refl eq_refl eq_refl)
    as (noninteractive & Hmain).
  rewrite Hmain; reflexivity.
Defined.

(** X14 at the name of the shallow style. *)
Lemma incremental_style_decoding_witness :
  incremental (example_collaborators [] None (Returned SUCCESS) None)
    example_style_names (Some example_arguments) false "shallow" false false
  = _run_incremental_command (example_collaborators [] None (Returned SUCCESS) None)
      example_arguments false SHALLOW false false.
Proof.
  assert (Hdistinct : example_style_names SHALLOW <> example_style_names FINE_GRAINED)
    by discriminate.
  exact (proj1 (@incremental_style_decoding _
                  (example_collaborators [] None (Returned SUCCESS) None)
                  example_style_names (Some example_arguments) false false false)
           Hdistinct SHALLOW).
Defined.

(** X15 on a machine with watchman. *)
Lemma default_is_incremental_witness :
  _run_default_command
    (example_collaborators [] None (Returned SUCCESS) (Some "/usr/bin/watchman"))
    example_arguments example_world
  = incremental
      (example_collaborators [] None (Returned SUCCESS) (Some "/usr/bin/watchman"))
      example_style_names (Some example_arguments) false "fine_grained" false false
      (record example_world [EvWhich "watchman"]).
Proof.
  assert (Hdistinct : example_style_names SHALLOW <> example_style_names FINE_GRAINED)
    by discriminate.
  exact (@default_is_incremental _
           (example_collaborators [] None (Returned SUCCESS) (Some "/usr/bin/watchman"))
           example_style_names example_arguments example_world Hdistinct eq_refl).
Defined.

(** X17 in a repository with nothing to analyse: [stop] returns what its
    command reports. *)
Lemma stop_needs_nothing_to_analyse_witness :
  snd (check (example_collaborators [] None (Returned SUCCESS) None)
         (Some example_arguments) example_world)
  = Raised (mkExc InvalidConfiguration
              "No buck targets or source directories to analyze.")
  /\ snd (stop (example_collaborators [] None (Returned SUCCESS) None)
            example_server (Some example_arguments) example_world)
     = Returned SUCCESS.
Proof.
  exact (@stop_needs_nothing_to_analyse _
           (example_collaborators [] None (Returned SUCCESS) None)
           example_server example_arguments example_world empty_configuration
           eq_refl eq_refl eq_refl eq_refl).
Defined.

(** X18 with interactive arguments: logging starts in non-interactive
    mode. *)
Lemma persistent_is_noninteractive_witness :
  command_arguments.noninteractive (parsed_arguments version_and_check) = false
  /\ In (EvStartLogging true "/repo/.pyre")
       (trace (fst (persistent (example_collaborators [] None (Returned SUCCESS) None)
                      example_server (Some (parsed_arguments version_and_check))
                      false example_world))).
Proof.
  split; [reflexivity|].
  exact (proj2 (@persistent_is_noninteractive _
                  (example_collaborators [] None (Returned SUCCESS) None)
                  example_server (Some (parsed_arguments version_and_check)) false)
           (parsed_arguments version_and_check) empty_configuration example_world
           eq_refl eq_refl eq_refl).
Defined.

(** X19 on an enumeration of two members named by themselves. *)
Lemma get_profile_output_decodes_witness :
  get_profile_output ["trace_event"; "cold_start_phases"] (fun name => name)
    "cold_start_phases"
  = inl "cold_start_phases".
Proof.
  assert (Hnames : NoDup (map (fun name : string => name)
                            ["trace_event"; "cold_start_phases"])).
  { repeat constructor; cbn; intuition discriminate. }
  apply (proj2 (proj2 (@get_profile_output_decodes string
                         ["trace_event"; "cold_start_phases"] (fun name => name)
                         "cold_start_phases")) Hnames).
  right; left; reflexivity.
Defined.
